(** * QpSplineStBoundaryMapper: station-time boundary mapping

    A shallow embedding of
    [modules/planning/optimizer/qp_spline_st_speed/qp_spline_st_boundary_mapper.cc]
    and the properties of its boundary builders and of its orchestrator
    [get_graph_boundary].

    Conventions of the embedding.
    - A C++ [double] is an exact rational ([Q]); rounding, infinities and
      NaN are not modelled.  Every concrete input used below consists of
      small integers and halves, on which binary64 arithmetic is exact.
    - [uint32_t] loop counters are integers reduced modulo [2^32].
    - The output vector reached through the pointer argument is a
      [list StGraphBoundary]; a pointer that may be null is an [option].
    - Loops that the source does not bound are run by a step function and
      a step budget; running out of budget is [None].
    - The argument [initial_planning_point], which no function of the file
      reads, is left out; the lane of a stop line is taken to exist in the
      map. *)

From Stdlib Require Import List String ZArith QArith Qabs Qminmax Lqa Lia Bool.
Import ListNotations.

Local Open Scope Q_scope.

(** ** Numeric helpers of <cmath> *)

(** [std::fmax(x, y)]. *)
Definition fmax (x y : Q) : Q := if Qlt_le_dec x y then y else x.

(** [std::fmin(x, y)]. *)
Definition fmin (x y : Q) : Q := if Qlt_le_dec y x then y else x.

(** [std::fabs(x)]. *)
Definition fabs (x : Q) : Q := if Qlt_le_dec x 0 then - x else x.

(** The C++ comparison [x < y] on doubles, as a boolean. *)
Definition Qltb (x y : Q) : bool := if Qlt_le_dec x y then true else false.

(** [x >= y]. *)
Definition Qgeb (x y : Q) : bool := if Qlt_le_dec x y then false else true.

(** [++i] on a [uint32_t]. *)
Definition uint32_incr (i : Z) : Z := ((i + 1) mod 2 ^ 32)%Z.

(** ** Data model *)

(** [apollo::common::ErrorCode], the three codes this file uses. *)
Inductive ErrorCode : Type :=
| OK
| PLANNING_ERROR
| PLANNING_SKIP.

(** [apollo::common::Status]: an error code and a message. *)
Record Status : Type := mkStatus {
  code : ErrorCode;
  error_message : string
}.

Definition Status_OK : Status := mkStatus OK "".

(** [Status(code)], the message defaulted to the empty string. *)
Definition Status_of (c : ErrorCode) : Status := mkStatus c "".

Definition ErrorCode_eqb (a b : ErrorCode) : bool :=
  match a, b with
  | OK, OK | PLANNING_ERROR, PLANNING_ERROR | PLANNING_SKIP, PLANNING_SKIP => true
  | _, _ => false
  end.

(** [Status::operator==]: same code and same message. *)
Definition Status_eqb (a b : Status) : bool :=
  ErrorCode_eqb (code a) (code b) && String.eqb (error_message a) (error_message b).

(** [Status::ok()]. *)
Definition ok (s : Status) : bool := ErrorCode_eqb (code s) OK.

(** [STPoint]: a station [s] and a time [t]. *)
Record STPoint : Type := mkSTPoint { st_s : Q; st_t : Q }.

Definition set_s (p : STPoint) (v : Q) : STPoint := mkSTPoint v (st_t p).
Definition set_t (p : STPoint) (v : Q) : STPoint := mkSTPoint (st_s p) v.

(** [StGraphBoundary::BoundaryType]. *)
Inductive BoundaryType : Type :=
| STOP
| FOLLOW
| YIELD
| OVERTAKE
| UNKNOWN.

(** [StGraphBoundary]: the polygon, its tag, and the characteristic length
    when one of the builders set it ([None]: left as constructed). *)
Record StGraphBoundary : Type := mkStGraphBoundary {
  points : list STPoint;
  boundary_type : BoundaryType;
  characteristic_length : option Q
}.

(** [boundary->emplace_back(boundary_points)]: a boundary built from the
    points alone; the constructor's tag is [UNKNOWN]. *)
Definition emplace_back (boundary : list StGraphBoundary) (pts : list STPoint)
  : list StGraphBoundary :=
  boundary ++ [mkStGraphBoundary pts UNKNOWN None].

(** [boundary->back().set_characteristic_length(l)]. *)
Definition back_set_characteristic_length (boundary : list StGraphBoundary) (l : Q)
  : list StGraphBoundary :=
  match rev boundary with
  | [] => boundary
  | b :: r => rev r ++ [mkStGraphBoundary (points b) (boundary_type b) (Some l)]
  end.

(** [boundary->back().set_boundary_type(t)]. *)
Definition back_set_boundary_type (boundary : list StGraphBoundary) (t : BoundaryType)
  : list StGraphBoundary :=
  match rev boundary with
  | [] => boundary
  | b :: r => rev r ++ [mkStGraphBoundary (points b) t (characteristic_length b)]
  end.

Record Vec2d : Type := mkVec2d { vx : Q; vy : Q }.

Record SLPoint : Type := mkSLPoint { sl_s : Q; sl_l : Q }.

(** [common::PathPoint]. *)
Record PathPoint : Type := mkPathPoint {
  pp_x : Q; pp_y : Q; pp_theta : Q; pp_s : Q
}.

(** [common::TrajectoryPoint] of a prediction: a pose and a relative time. *)
Record TrajectoryPoint : Type := mkTrajectoryPoint {
  path_point : PathPoint;
  relative_time : Q
}.

(** [PredictionTrajectory]. *)
Record PredictionTrajectory : Type := mkPredictionTrajectory {
  start_timestamp : Q;
  trajectory_points : list TrajectoryPoint
}.

Definition num_of_points (t : PredictionTrajectory) : Z :=
  Z.of_nat (List.length (trajectory_points t)).

(** [common::math::Box2d(center, heading, length, width)]. *)
Record Box2d : Type := mkBox2d {
  center : Vec2d; heading : Q; box_length : Q; box_width : Q
}.

(** [ObjectDecisionType]: the tags the mapper probes with [has_follow],
    [has_yield] and [has_overtake], each with its [distance_s]; every other
    tag is [ObjOther]. *)
Inductive ObjectDecisionType : Type :=
| ObjFollow (distance_s : Q)
| ObjYield (distance_s : Q)
| ObjOvertake (distance_s : Q)
| ObjOther.

Definition has_follow (d : ObjectDecisionType) : bool :=
  match d with ObjFollow _ => true | _ => false end.
Definition has_yield (d : ObjectDecisionType) : bool :=
  match d with ObjYield _ => true | _ => false end.
Definition has_overtake (d : ObjectDecisionType) : bool :=
  match d with ObjOvertake _ => true | _ => false end.

(** [Obstacle]. *)
Record Obstacle : Type := mkObstacle {
  Id : string;
  Speed : Q;
  Length : Q;
  Width : Q;
  prediction_trajectories : list PredictionTrajectory;
  Decisions : list ObjectDecisionType
}.

(** [MainStop]: the enforced stop line, a lane and an arc length on it. *)
Record MainStop : Type := mkMainStop {
  lane_id : string;
  line_distance_s : Q
}.

(** The main decision: [has_stop], [has_mission_complete], or neither. *)
Inductive MainDecision : Type :=
| MainDecisionStop (stop : MainStop)
| MainDecisionMissionComplete
| MainDecisionNone.

(** [DecisionData]; the obstacle vectors hold pointers, which may be null. *)
Record DecisionData : Type := mkDecisionData {
  main_decision : MainDecision;
  StaticObstacles : list (option Obstacle);
  DynamicObstacles : list (option Obstacle)
}.

(** [ReferenceLine]: its length and the fallible Frenet projection. *)
Record ReferenceLine : Type := mkReferenceLine {
  length_of : Q;
  get_point_in_Frenet_frame : Vec2d -> option SLPoint
}.

(** [StBoundaryConfig]. *)
Record StBoundaryConfig : Type := mkStBoundaryConfig {
  boundary_buffer : Q;
  follow_buffer : Q;
  point_extension : Q;
  expending_coeff : Q;
  minimal_follow_time : Q;
  success_tunnel : Q
}.

(** [VehicleParam], the one field read here. *)
Record VehicleParam : Type := mkVehicleParam {
  front_edge_to_center : Q
}.

(** What the file reads from its surroundings: the gflags, the singletons
    ([DataCenter]'s map, [VehicleState], [VehicleConfigHelper]) and the
    mapper's own configuration. *)
Record Env : Type := mkEnv {
  FLAGS_backward_routing_distance : Q;
  FLAGS_decision_valid_stop_range : Q;
  (** [DataCenter::instance()->map().get_lane_by_id(id)->get_smooth_point(s)] *)
  get_smooth_point : string -> Q -> Vec2d;
  (** [common::VehicleState::instance()->timestamp()] *)
  vehicle_state_timestamp : Q;
  (** [VehicleConfigHelper::GetConfig().vehicle_param()] *)
  helper_vehicle_param : VehicleParam;
  (** [st_boundary_config()] *)
  st_boundary_config : StBoundaryConfig;
  (** [vehicle_param()] *)
  vehicle_param : VehicleParam
}.

(** ** The builders *)

Section Mapper.

(** Helpers of the base class [StBoundaryMapper] and of [math/double.h],
    which this translation unit calls and does not define: the polygon area
    [get_area], the footprint test [check_overlap] and the three-way
    comparison [Double::compare] (negative, zero or positive). *)
Variable get_area : list STPoint -> Q.
Variable check_overlap : PathPoint -> VehicleParam -> Box2d -> Q -> bool.
Variable Double_compare : Q -> Q -> Z.

Variable env : Env.

(** [stop_rear_center_s] (lines 157-160), from the projected stop point. *)
Definition stop_rear_center_s_of (sl_point : SLPoint) : Q :=
  let sl_point :=
    mkSLPoint (sl_s sl_point - FLAGS_backward_routing_distance env)
              (sl_l sl_point) in
  sl_s sl_point - FLAGS_decision_valid_stop_range env
  - front_edge_to_center (helper_vehicle_param env).

(** [map_main_decision_stop] (lines 141-195). *)
Definition map_main_decision_stop (main_stop : MainStop)
    (reference_line : ReferenceLine) (planning_distance planning_time : Q)
    (boundary : list StGraphBoundary) : Status * list StGraphBoundary :=
  let map_point :=
    get_smooth_point env (lane_id main_stop) (line_distance_s main_stop) in
  match get_point_in_Frenet_frame reference_line
          (mkVec2d (vx map_point) (vy map_point)) with
  | None => (Status_of PLANNING_ERROR, boundary)
  | Some sl_point =>
    let stop_rear_center_s := stop_rear_center_s_of sl_point in
    let skip_beyond_horizon :=
      if (Double_compare stop_rear_center_s 0 <? 0)%Z then false
      else Qgeb stop_rear_center_s
             (length_of reference_line - FLAGS_backward_routing_distance env) in
    if skip_beyond_horizon then (Status_of PLANNING_SKIP, boundary)
    else
      let s_min := if Qltb 0 stop_rear_center_s then stop_rear_center_s else 0 in
      let s_max :=
        fmax (s_min + 1) (fmax planning_distance (length_of reference_line)) in
      let boundary_points :=
        [ mkSTPoint s_min 0;
          mkSTPoint s_min planning_time;
          mkSTPoint (s_max + boundary_buffer (st_boundary_config env)) planning_time;
          mkSTPoint s_max 0 ] in
      let area := get_area boundary_points in
      if (Double_compare area 0 <=? 0)%Z then (Status_of PLANNING_SKIP, boundary)
      else
        let boundary := emplace_back boundary boundary_points in
        let boundary :=
          back_set_characteristic_length boundary
            (boundary_buffer (st_boundary_config env)) in
        let boundary := back_set_boundary_type boundary STOP in
        (Status_OK, boundary)
  end.

(** [map_obstacle_with_planning] (lines 197-203). *)
Definition map_obstacle_with_planning (obstacle : Obstacle)
    (path_data : list PathPoint) (planning_distance planning_time : Q)
    (boundary : list StGraphBoundary) : Status * list StGraphBoundary :=
  (Status_OK, boundary).

(** [map_obstacle_without_trajectory] (lines 374-380). *)
Definition map_obstacle_without_trajectory (obstacle : Obstacle)
    (path_data : list PathPoint) (planning_distance planning_time : Q)
    (boundary : list StGraphBoundary) : Status * list StGraphBoundary :=
  (Status_OK, boundary).

(** [map_mission_complete] (lines 205-230). *)
Definition map_mission_complete (reference_line : ReferenceLine)
    (planning_distance planning_time : Q)
    (boundary : list StGraphBoundary) : Status * list StGraphBoundary :=
  let s_min := success_tunnel (st_boundary_config env) in
  let s_max :=
    fmin planning_distance
         (length_of reference_line - FLAGS_backward_routing_distance env) in
  let boundary_points :=
    [ mkSTPoint s_min 0;
      mkSTPoint s_max 0;
      mkSTPoint (s_max + boundary_buffer (st_boundary_config env)) planning_time;
      mkSTPoint s_min planning_time ] in
  let area := get_area boundary_points in
  if (Double_compare area 0 <=? 0)%Z then (Status_of PLANNING_SKIP, boundary)
  else
    let boundary := emplace_back boundary boundary_points in
    let boundary :=
      back_set_characteristic_length boundary
        (boundary_buffer (st_boundary_config env)) in
    let boundary := back_set_boundary_type boundary STOP in
    (Status_OK, boundary).

(** *** The dynamic boundary builder (lines 232-372) *)

Definition default_path_point : PathPoint := mkPathPoint 0 0 0 0.
Definition default_st_point : STPoint := mkSTPoint 0 0.

(** [adc_path_points[k]] for an [int64_t] index. *)
Definition path_point_at (adc_path_points : list PathPoint) (k : Z) : PathPoint :=
  nth (Z.to_nat k) adc_path_points default_path_point.

(** [trajectory.trajectory_point_at(j)]. *)
Definition trajectory_point_at (trajectory : PredictionTrajectory) (j : Z)
  : TrajectoryPoint :=
  nth (Z.to_nat j) (trajectory_points trajectory)
      (mkTrajectoryPoint default_path_point 0).

(** [v.at(k)] and [v.back()] on a vector of ST points.  The source reads
    them only on vectors it has just filled, so the default is never seen. *)
Definition at_ (v : list STPoint) (k : nat) : STPoint := nth k v default_st_point.
Definition back (v : list STPoint) : STPoint := last v default_st_point.

(** [v.at(k).set_s(x)] and [v.at(k).set_t(x)]. *)
Fixpoint update_at (k : nat) (f : STPoint -> STPoint) (v : list STPoint)
  : list STPoint :=
  match v, k with
  | [], _ => []
  | p :: r, O => f p :: r
  | p :: r, S k' => p :: update_at k' f r
  end.

Definition at_set_s (v : list STPoint) (k : nat) (x : Q) : list STPoint :=
  update_at k (fun p => set_s p x) v.
Definition at_set_t (v : list STPoint) (k : nat) (x : Q) : list STPoint :=
  update_at k (fun p => set_t p x) v.

(** The variables of the overlap search (lines 272-275). *)
Record ScanState : Type := mkScanState {
  low : Z;
  high : Z;
  find_low : bool;
  find_high : bool
}.

(** One pass through the body of [while (low < high)] (lines 280-295), for
    a state in which the loop neither exits nor breaks. *)
Definition scan_body (adc_path_points : list PathPoint) (obs_box : Box2d)
    (s : ScanState) : ScanState :=
  let hits k :=
    check_overlap (path_point_at adc_path_points k) (vehicle_param env) obs_box
                  (boundary_buffer (st_boundary_config env)) in
  let s :=
    if negb (find_low s) then
      if negb (hits (low s))
      then mkScanState (low s + 1)%Z (high s) (find_low s) (find_high s)
      else mkScanState (low s) (high s) true (find_high s)
    else s in
  if negb (find_high s) then
    if negb (hits (high s))
    then mkScanState (low s) (high s - 1)%Z (find_low s) (find_high s)
    else mkScanState (low s) (high s) (find_low s) true
  else s.

(** The loop is over when [low < high] fails or both indices are found. *)
Definition scan_over (s : ScanState) : bool :=
  negb (low s <? high s)%Z || (find_low s && find_high s).

(** The [while] loop of lines 276-296, at most [budget] passes. *)
Fixpoint scan (budget : nat) (adc_path_points : list PathPoint) (obs_box : Box2d)
    (s : ScanState) : ScanState :=
  match budget with
  | O => s
  | S budget' =>
    if scan_over s then s
    else scan budget' adc_path_points obs_box (scan_body adc_path_points obs_box s)
  end.

(** The overlap search from [low = 0], [high = num_of_points - 1]; every
    pass moves an index or sets a flag, so [num_of_points + 1] passes are
    enough (lemma [find_overlap_over]). *)
Definition find_overlap (adc_path_points : list PathPoint) (obs_box : Box2d)
  : ScanState :=
  scan (S (List.length adc_path_points)) adc_path_points obs_box
       (mkScanState 0 (Z.of_nat (List.length adc_path_points) - 1) false false).

(** The decision-specific change of the four vertices and the tag
    (lines 327-359). *)
Definition apply_decision (obj_decision : ObjectDecisionType)
    (follow_distance : Q) (boundary_points : list STPoint)
  : list STPoint * BoundaryType :=
  match obj_decision with
  | ObjFollow _ =>
    let boundary_points :=
      at_set_s boundary_points 0 (st_s (at_ boundary_points 0) - follow_distance) in
    let boundary_points :=
      at_set_s boundary_points 1 (st_s (at_ boundary_points 1) - follow_distance) in
    let boundary_points := at_set_t boundary_points 3 (- (1)) in
    (boundary_points, FOLLOW)
  | ObjYield distance_s =>
    let dis := fabs distance_s in
    let boundary_points :=
      if Qltb (st_s (at_ boundary_points 0) - dis) 0
      then at_set_s boundary_points 0 (fmax (st_s (at_ boundary_points 0) - 2) 0)
      else at_set_s boundary_points 0 (fmax (st_s (at_ boundary_points 0) - dis) 0) in
    let boundary_points :=
      if Qltb (st_s (at_ boundary_points 1) - dis) 0
      then at_set_s boundary_points 1 (fmax (st_s (at_ boundary_points 0) - 4) 0)
      else at_set_s boundary_points 1 (fmax (st_s (at_ boundary_points 0) - dis) 0) in
    (boundary_points, YIELD)
  | ObjOvertake distance_s =>
    let dis := fabs distance_s in
    let boundary_points :=
      at_set_s boundary_points 2 (st_s (at_ boundary_points 2) + dis) in
    let boundary_points :=
      at_set_s boundary_points 3 (st_s (at_ boundary_points 3) + dis) in
    (boundary_points, UNKNOWN)
  | ObjOther => (boundary_points, UNKNOWN)
  end.

(** The locals that live across the two loops, and the output vector
    [*boundary]. *)
Record BuilderState : Type := mkBuilderState {
  lower_points : list STPoint;
  upper_points : list STPoint;
  boundary_points : list STPoint;
  boundary_out : list StGraphBoundary;
  skip : bool
}.

(** [follow_distance] (lines 243-248). *)
Definition follow_distance_of (obstacle : Obstacle)
    (obj_decision : ObjectDecisionType) : Q :=
  match obj_decision with
  | ObjFollow distance_s =>
    fmax (Speed obstacle * minimal_follow_time (st_boundary_config env))
         (fabs distance_s)
    + front_edge_to_center (vehicle_param env)
  | _ => - (1)
  end.

(** The body of the inner loop (lines 261-367) at sample [j] of
    [trajectory]. *)
Definition sample_body (obstacle : Obstacle) (obj_decision : ObjectDecisionType)
    (path_data : list PathPoint) (trajectory : PredictionTrajectory) (j : Z)
    (st : BuilderState) : BuilderState :=
  let cfg := st_boundary_config env in
  let trajectory_point := trajectory_point_at trajectory j in
  let trajectory_point_time :=
    relative_time trajectory_point + start_timestamp trajectory
    - vehicle_state_timestamp env in
  let obs_box :=
    mkBox2d (mkVec2d (pp_x (path_point trajectory_point))
                     (pp_y (path_point trajectory_point)))
            (pp_theta (path_point trajectory_point))
            (Length obstacle * expending_coeff cfg)
            (Width obstacle * expending_coeff cfg) in
  let found := find_overlap path_data obs_box in
  let st :=
    if find_high found && find_low found then
      mkBuilderState
        (lower_points st ++
           [mkSTPoint (pp_s (path_point_at path_data (low found)) - point_extension cfg)
                      trajectory_point_time])
        (upper_points st ++
           [mkSTPoint (pp_s (path_point_at path_data (high found)) + point_extension cfg)
                      trajectory_point_time])
        (boundary_points st) (boundary_out st) (skip st)
    else st in
  if (0 <? List.length (lower_points st))%nat then
    let buffer := follow_buffer cfg in
    let lower := lower_points st in
    let upper := upper_points st in
    let boundary_points :=
      [ mkSTPoint (st_s (at_ lower 0) - buffer) (st_t (at_ lower 0));
        mkSTPoint (st_s (back lower) - buffer) (st_t (back lower));
        mkSTPoint (st_s (back upper) + buffer + boundary_buffer cfg)
                  (st_t (back upper));
        mkSTPoint (st_s (at_ upper 0) + buffer) (st_t (at_ upper 0)) ] in
    let '(boundary_points, b_type) :=
      apply_decision obj_decision (follow_distance_of obstacle obj_decision)
                     boundary_points in
    let area := get_area boundary_points in
    if (0 <? Double_compare area 0)%Z then
      mkBuilderState lower upper boundary_points
        (back_set_boundary_type (emplace_back (boundary_out st) boundary_points) b_type)
        false
    else mkBuilderState lower upper boundary_points (boundary_out st) (skip st)
  else st.

(** Where control is in the two nested [for] loops (lines 258-369): at the
    test of the outer loop with counter [i]; at the test of the inner loop,
    with the reference [trajectory] bound at line 259 and the counters [i]
    and [j]; or past both loops. *)
Inductive LoopPoint : Type :=
| OuterTest (i : Z)
| InnerTest (trajectory : PredictionTrajectory) (i j : Z)
| LoopsDone.

(** One step of the loops.  The increment of the inner loop (line 260) is
    [++i]: it advances the outer counter and leaves [j] as it is. *)
Definition loop_step (obstacle : Obstacle) (obj_decision : ObjectDecisionType)
    (path_data : list PathPoint) (c : LoopPoint * BuilderState)
  : LoopPoint * BuilderState :=
  let '(pc, st) := c in
  match pc with
  | OuterTest i =>
    if (i <? Z.of_nat (List.length (prediction_trajectories obstacle)))%Z
    then (InnerTest (nth (Z.to_nat i) (prediction_trajectories obstacle)
                         (mkPredictionTrajectory 0 []))
                    i 0, st)
    else (LoopsDone, st)
  | InnerTest trajectory i j =>
    if (j <? num_of_points trajectory)%Z
    then (InnerTest trajectory (uint32_incr i) j,
          sample_body obstacle obj_decision path_data trajectory j st)
    else (OuterTest (uint32_incr i), st)
  | LoopsDone => (LoopsDone, st)
  end.

(** [n] steps of the loops. *)
Fixpoint loop_run (n : nat) (obstacle : Obstacle)
    (obj_decision : ObjectDecisionType) (path_data : list PathPoint)
    (c : LoopPoint * BuilderState) : LoopPoint * BuilderState :=
  match n with
  | O => c
  | S n' =>
    loop_run n' obstacle obj_decision path_data
             (loop_step obstacle obj_decision path_data c)
  end.

(** The builder's state on entry to the loops (lines 238-251). *)
Definition builder_start (boundary : list StGraphBoundary)
  : LoopPoint * BuilderState :=
  (OuterTest 0, mkBuilderState [] [] [] boundary true).

(** [map_obstacle_with_prediction_trajectory]: the status and the output
    vector when the loops are left within [budget] steps. *)
Definition map_obstacle_with_prediction_trajectory (budget : nat)
    (obstacle : Obstacle) (obj_decision : ObjectDecisionType)
    (path_data : list PathPoint) (planning_distance planning_time : Q)
    (boundary : list StGraphBoundary)
  : option (Status * list StGraphBoundary) :=
  match loop_run budget obstacle obj_decision path_data (builder_start boundary) with
  | (LoopsDone, st) =>
    Some (if skip st then mkStatus PLANNING_SKIP "PLANNING_SKIP" else Status_OK,
          boundary_out st)
  | _ => None
  end.

(** *** The orchestrator (lines 51-139) *)

(** How a block of [get_graph_boundary] is left: by falling through to the
    next statement, or by a [return]; either way with the output vector as
    it then is. *)
Inductive Flow : Type :=
| Continue (boundary : list StGraphBoundary)
| Return (ret : Status) (boundary : list StGraphBoundary).

(** The main decision (lines 80-94). *)
Definition map_main_decision (decision_data : DecisionData)
    (reference_line : ReferenceLine) (planning_distance planning_time : Q)
    (obs_boundary : list StGraphBoundary) : Flow :=
  match main_decision decision_data with
  | MainDecisionStop stop =>
    let '(ret, obs_boundary) :=
      map_main_decision_stop stop reference_line planning_distance planning_time
                             obs_boundary in
    if negb (Status_eqb ret Status_OK)
       && negb (Status_eqb ret (Status_of PLANNING_SKIP))
    then Return (Status_of PLANNING_ERROR) obs_boundary
    else Continue obs_boundary
  | MainDecisionMissionComplete =>
    let '(ret, obs_boundary) :=
      map_mission_complete reference_line planning_distance planning_time
                           obs_boundary in
    if negb (Status_eqb ret Status_OK)
       && negb (Status_eqb ret (Status_of PLANNING_SKIP))
    then Return (Status_of PLANNING_ERROR) obs_boundary
    else Continue obs_boundary
  | MainDecisionNone => Continue obs_boundary
  end.

(** The loop over the static obstacles (lines 96-108). *)
Fixpoint map_static_obstacles (static_obs_vec : list (option Obstacle))
    (path_data : list PathPoint) (planning_distance planning_time : Q)
    (obs_boundary : list StGraphBoundary) : Flow :=
  match static_obs_vec with
  | [] => Continue obs_boundary
  | None :: rest =>
    map_static_obstacles rest path_data planning_distance planning_time obs_boundary
  | Some obs :: rest =>
    let '(ret, obs_boundary) :=
      map_obstacle_without_trajectory obs path_data planning_distance
                                      planning_time obs_boundary in
    if negb (ok ret)
    then Return (mkStatus PLANNING_ERROR "Fail to map static obstacle") obs_boundary
    else map_static_obstacles rest path_data planning_distance planning_time
                              obs_boundary
  end.

(** The loop over the decisions of one dynamic obstacle (lines 115-136). *)
Fixpoint map_decisions (budget : nat) (obs : Obstacle)
    (decisions : list ObjectDecisionType) (path_data : list PathPoint)
    (planning_distance planning_time : Q) (obs_boundary : list StGraphBoundary)
  : option Flow :=
  match decisions with
  | [] => Some (Continue obs_boundary)
  | obj_decision :: rest =>
    if has_follow obj_decision then
      let '(ret, obs_boundary) :=
        map_obstacle_with_planning obs path_data planning_distance planning_time
                                   obs_boundary in
      if negb (ok ret)
      then Some (Return (mkStatus PLANNING_ERROR "Fail to map follow dynamic obstacle")
                        obs_boundary)
      else map_decisions budget obs rest path_data planning_distance planning_time
                         obs_boundary
    else if has_overtake obj_decision || has_yield obj_decision then
      match map_obstacle_with_prediction_trajectory budget obs obj_decision
              path_data planning_distance planning_time obs_boundary with
      | None => None
      | Some (ret, obs_boundary) =>
        if negb (ok ret)
        then Some (Return Status_OK obs_boundary)
        else map_decisions budget obs rest path_data planning_distance
                           planning_time obs_boundary
      end
    else map_decisions budget obs rest path_data planning_distance planning_time
                       obs_boundary
  end.

(** The loop over the dynamic obstacles (lines 110-137). *)
Fixpoint map_dynamic_obstacles (budget : nat)
    (dynamic_obs_vec : list (option Obstacle)) (path_data : list PathPoint)
    (planning_distance planning_time : Q) (obs_boundary : list StGraphBoundary)
  : option Flow :=
  match dynamic_obs_vec with
  | [] => Some (Continue obs_boundary)
  | None :: rest =>
    map_dynamic_obstacles budget rest path_data planning_distance planning_time
                          obs_boundary
  | Some obs :: rest =>
    match map_decisions budget obs (Decisions obs) path_data planning_distance
                        planning_time obs_boundary with
    | None => None
    | Some (Return ret obs_boundary) => Some (Return ret obs_boundary)
    | Some (Continue obs_boundary) =>
      map_dynamic_obstacles budget rest path_data planning_distance planning_time
                            obs_boundary
    end
  end.

(** [get_graph_boundary] from [obs_boundary->clear()] on (lines 77-138),
    for the vector that [obs_boundary] points to. *)
Definition get_graph_boundary_body (budget : nat) (decision_data : DecisionData)
    (path_data : list PathPoint) (reference_line : ReferenceLine)
    (planning_distance planning_time : Q) (pointee : list StGraphBoundary)
  : option (Status * list StGraphBoundary) :=
  let obs_boundary : list StGraphBoundary := [] in
  match map_main_decision decision_data reference_line planning_distance
                          planning_time obs_boundary with
  | Return ret obs_boundary => Some (ret, obs_boundary)
  | Continue obs_boundary =>
    match map_static_obstacles (StaticObstacles decision_data) path_data
            planning_distance planning_time obs_boundary with
    | Return ret obs_boundary => Some (ret, obs_boundary)
    | Continue obs_boundary =>
      match map_dynamic_obstacles budget (DynamicObstacles decision_data)
              path_data planning_distance planning_time obs_boundary with
      | None => None
      | Some (Return ret obs_boundary) => Some (ret, obs_boundary)
      | Some (Continue obs_boundary) => Some (Status_OK, obs_boundary)
      end
    end
  end.

(** How a call of [get_graph_boundary] ends: it returns a status, or it
    calls a member function through a null pointer, which is undefined
    behaviour. *)
Inductive Outcome : Type :=
| Returned (ret : Status)
| NullDereference.

(** The test [if (p)] on a pointer. *)
Definition non_null {A : Type} (p : option A) : bool :=
  match p with Some _ => true | None => false end.

(** [get_graph_boundary] (lines 51-139).  [obs_boundary] is the pointer
    argument: [None] for [nullptr], [Some v] for a pointer to the vector
    [v].  The result is the outcome with what the pointer then points to;
    [None] when the budget of a builder ran out. *)
Definition get_graph_boundary (budget : nat) (decision_data : DecisionData)
    (path_data : list PathPoint) (reference_line : ReferenceLine)
    (planning_distance planning_time : Q)
    (obs_boundary : option (list StGraphBoundary))
  : option (Outcome * option (list StGraphBoundary)) :=
  if non_null obs_boundary then
    Some (Returned (mkStatus PLANNING_ERROR "obs_boundary is NULL."), obs_boundary)
  else if Qltb planning_time 0 then
    Some (Returned (mkStatus PLANNING_ERROR
                      "Fail to get params since planning_time < 0."),
          obs_boundary)
  else if (Z.of_nat (List.length path_data) <? 2)%Z then
    Some (Returned (mkStatus PLANNING_ERROR
                      "Fail to get params because of too few path points"),
          obs_boundary)
  else
    match obs_boundary with
    | None => Some (NullDereference, None)
    | Some pointee =>
      match get_graph_boundary_body budget decision_data path_data reference_line
              planning_distance planning_time pointee with
      | None => None
      | Some (ret, pointee) => Some (Returned ret, Some pointee)
      end
    end.

End Mapper.

(** ** Concrete helpers and scenes *)

(** Modelled from the spec: [Double::compare] is declared in
    [modules/planning/math/double.h], which is not among the sources.  The
    spec reads its result as the sign of the difference ("if this value is
    negative", "if the signed area is non-positive"). *)
Definition exact_compare (a b : Q) : Z :=
  match Qcompare a b with
  | Lt => (-1)%Z
  | Eq => 0%Z
  | Gt => 1%Z
  end.

(** Twice the signed area of the fan of triangles from [p0] over [pts]. *)
Fixpoint fan_sum (p0 : STPoint) (pts : list STPoint) : Q :=
  match pts with
  | p1 :: ((p2 :: _) as rest) =>
    (st_t p1 - st_t p0) * (st_s p2 - st_s p0)
    - (st_s p1 - st_s p0) * (st_t p2 - st_t p0)
    + fan_sum p0 rest
  | _ => 0
  end.

(** Modelled from the spec: [get_area] belongs to the base class
    [StBoundaryMapper], which is not among the sources.  The spec calls it
    a signed-area computation over an ordered vertex sequence; the sign is
    taken positive for the vertex order of the stop builder. *)
Definition signed_area (pts : list STPoint) : Q :=
  match pts with
  | [] => 0
  | p0 :: rest => fan_sum p0 rest * (1 # 2)
  end.

(** Modelled from the spec: [check_overlap] belongs to the base class too.
    The spec asks whether the vehicle footprint at a path point, widened by
    the buffer, meets the obstacle box; here for boxes of heading zero and
    the vehicle taken as its reference point. *)
Definition axis_aligned_overlap (p : PathPoint) (_ : VehicleParam) (box : Box2d)
    (buffer : Q) : bool :=
  Qle_bool (Qabs (pp_x p - vx (center box))) (box_length box * (1 # 2) + buffer)
  && Qle_bool (Qabs (pp_y p - vy (center box))) (box_width box * (1 # 2) + buffer).

(** A configuration: backward routing distance 5, valid stop range 1, front
    overhang 1, every buffer 1; lanes run along the x axis. *)
Definition sample_env : Env :=
  mkEnv 5 1 (fun _ s => mkVec2d s 0) 0 (mkVehicleParam 1)
        (mkStBoundaryConfig 1 1 1 1 2 10) (mkVehicleParam 1).

(** A straight reference line along the x axis, of the given length. *)
Definition straight_line (len : Q) : ReferenceLine :=
  mkReferenceLine len (fun v => Some (mkSLPoint (vx v) (vy v))).

(** A straight path of four points, ten apart. *)
Definition sample_path : list PathPoint :=
  [ mkPathPoint 0 0 0 0; mkPathPoint 10 0 0 10;
    mkPathPoint 20 0 0 20; mkPathPoint 30 0 0 30 ].

(** One predicted pose on the path at x = 20, at relative time 1. *)
Definition one_sample_trajectory : PredictionTrajectory :=
  mkPredictionTrajectory 0 [mkTrajectoryPoint (mkPathPoint 20 0 0 0) 1].

(** A dynamic obstacle, 24 by 2, with that single trajectory: its box
    covers the path points at 10, 20 and 30. *)
Definition crossing_obstacle (decisions : list ObjectDecisionType) : Obstacle :=
  mkObstacle "crossing" 3 24 2 [one_sample_trajectory] decisions.

(** A dynamic obstacle without any predicted trajectory. *)
Definition silent_obstacle (decisions : list ObjectDecisionType) : Obstacle :=
  mkObstacle "silent" 0 4 2 [] decisions.

(** A scene of two yielding dynamic obstacles: the first has no predicted
    trajectory, the second crosses the path. *)
Definition two_yield_scene : DecisionData :=
  mkDecisionData MainDecisionNone []
    [ Some (silent_obstacle [ObjYield 3]); Some (crossing_obstacle [ObjYield 3]) ].

(** A scene of a single yielding obstacle without predicted trajectories. *)
Definition silent_yield_scene : DecisionData :=
  mkDecisionData MainDecisionNone [] [ Some (silent_obstacle [ObjYield 3]) ].

(** The main stop decision of a stop line at arc length 50. *)
Definition stop_at_50 : MainStop := mkMainStop "lane" 50.

(** ** Vocabulary of the properties *)

(** A bound on the passes the overlap search still makes: the distance
    between the indices, plus one for each index not found yet. *)
Definition scan_measure (s : ScanState) : nat :=
  Z.to_nat (high s - low s)
  + (if find_low s then 0 else 1) + (if find_high s then 0 else 1).

(** The tag that lines 328-359 compute for a decision. *)
Definition decision_tag (d : ObjectDecisionType) : BoundaryType :=
  match d with
  | ObjFollow _ => FOLLOW
  | ObjYield _ => YIELD
  | ObjOvertake _ => UNKNOWN
  | ObjOther => UNKNOWN
  end.

(** What holds of the loops of the dynamic builder as long as no sample
    has been processed: outside the inner loop the builder state is the
    initial one, and the inner counter is zero. *)
Definition loop_inv (init : BuilderState) (c : LoopPoint * BuilderState) : Prop :=
  match c with
  | (OuterTest _, st) => st = init
  | (InnerTest trajectory _ j, st) =>
    j = 0%Z /\ (num_of_points trajectory = 0%Z -> st = init)
  | (LoopsDone, st) => st = init
  end.

(** The empty scene. *)
Definition empty_scene : DecisionData := mkDecisionData MainDecisionNone [] [].

(** ** Vocabulary of the further properties *)

(** The footprint test of lines 281 and 289 at path index [k]. *)
Definition overlaps_at
    (check_overlap : PathPoint -> VehicleParam -> Box2d -> Q -> bool) (env : Env)
    (adc_path_points : list PathPoint) (obs_box : Box2d) (k : Z) : bool :=
  check_overlap (path_point_at adc_path_points k) (vehicle_param env) obs_box
                (boundary_buffer (st_boundary_config env)).

(** What the overlap search keeps: the indices stay within the path, no
    index passed over overlaps, a found index overlaps, and two found
    indices are apart. *)
Definition scan_inv
    (check_overlap : PathPoint -> VehicleParam -> Box2d -> Q -> bool) (env : Env)
    (adc_path_points : list PathPoint) (obs_box : Box2d) (s : ScanState) : Prop :=
  (0 <= low s)%Z
  /\ (high s <= Z.of_nat (List.length adc_path_points) - 1)%Z
  /\ (forall k, (0 <= k < low s)%Z ->
        overlaps_at check_overlap env adc_path_points obs_box k = false)
  /\ (forall k, (high s < k <= Z.of_nat (List.length adc_path_points) - 1)%Z ->
        overlaps_at check_overlap env adc_path_points obs_box k = false)
  /\ (find_low s = true ->
        overlaps_at check_overlap env adc_path_points obs_box (low s) = true)
  /\ (find_high s = true ->
        overlaps_at check_overlap env adc_path_points obs_box (high s) = true)
  /\ (find_low s = true -> find_high s = true -> (low s < high s)%Z).

(** The time of sample [j] of a trajectory on the vehicle's clock
    (lines 263-265). *)
Definition sample_time (env : Env) (trajectory : PredictionTrajectory) (j : Z) : Q :=
  relative_time (trajectory_point_at trajectory j) + start_timestamp trajectory
  - vehicle_state_timestamp env.

(** The shape of the builder state: the two envelopes have one length, the
    polygon under construction is empty or has four vertices, and what was
    appended to [boundary] are four-vertex boundaries whose characteristic
    length was not set. *)
Definition builder_shape (boundary : list StGraphBoundary) (st : BuilderState)
  : Prop :=
  List.length (lower_points st) = List.length (upper_points st)
  /\ (List.length (boundary_points st) = 0%nat
      \/ List.length (boundary_points st) = 4%nat)
  /\ exists added,
       boundary_out st = boundary ++ added
       /\ Forall (fun b => List.length (points b) = 4%nat
                           /\ characteristic_length b = None) added.

(** What the loops keep when the decision is not Follow and flat polygons
    have no positive area: nothing is appended, and all envelope points
    carry the time of sample 0 of the trajectory being processed. *)
Definition flat_inv (env : Env) (boundary : list StGraphBoundary)
    (c : LoopPoint * BuilderState) : Prop :=
  let st := snd c in
  boundary_out st = boundary /\ skip st = true
  /\ List.length (lower_points st) = List.length (upper_points st)
  /\ match fst c with
     | InnerTest trajectory _ j =>
       j = 0%Z
       /\ Forall (fun p => st_t p = sample_time env trajectory 0) (lower_points st)
       /\ Forall (fun p => st_t p = sample_time env trajectory 0) (upper_points st)
       /\ (num_of_points trajectory = 0%Z -> lower_points st = [])
     | _ => lower_points st = []
     end.

(** The four vertices built from the first and the last envelope points
    (lines 312-321). *)
Definition envelope_polygon (env : Env) (lower upper : list STPoint)
  : list STPoint :=
  let buffer := follow_buffer (st_boundary_config env) in
  [ mkSTPoint (st_s (at_ lower 0) - buffer) (st_t (at_ lower 0));
    mkSTPoint (st_s (back lower) - buffer) (st_t (back lower));
    mkSTPoint (st_s (back upper) + buffer + boundary_buffer (st_boundary_config env))
              (st_t (back upper));
    mkSTPoint (st_s (at_ upper 0) + buffer) (st_t (at_ upper 0)) ].

(** A dynamic obstacle with two predicted trajectories, both without
    samples. *)
Definition idle_obstacle (decisions : list ObjectDecisionType) : Obstacle :=
  mkObstacle "idle" 0 4 2
    [mkPredictionTrajectory 0 []; mkPredictionTrajectory 1 []] decisions.

(** A decision that does not send the obstacle to the dynamic builder:
    the test of line 126 fails. *)
Definition quiet_decision (d : ObjectDecisionType) : bool :=
  negb (has_overtake d || has_yield d).

(** No obstacle of the list carries a Yield or an Overtake decision. *)
Definition no_prediction_decisions (obstacles : list (option Obstacle)) : bool :=
  forallb (fun o => match o with
                    | None => true
                    | Some obs => forallb quiet_decision (Decisions obs)
                    end) obstacles.

(** A reference line on which no point can be projected. *)
Definition broken_line (len : Q) : ReferenceLine :=
  mkReferenceLine len (fun _ => None).

(** A scene with the stop line at 50, a static obstacle, a null entry and
    a followed dynamic obstacle. *)
Definition follow_scene : DecisionData :=
  mkDecisionData (MainDecisionStop stop_at_50)
    [ Some (silent_obstacle []); None ]
    [ None; Some (crossing_obstacle [ObjFollow 3; ObjOther]) ].

(** A scene with the stop line at 50 and a yielding obstacle without
    predicted trajectories, followed by a crossing one. *)
Definition stop_and_yield_scene : DecisionData :=
  mkDecisionData (MainDecisionStop stop_at_50) []
    [ Some (silent_obstacle [ObjYield 3]); Some (crossing_obstacle [ObjYield 3]) ].

(** A scene in which the first Yield decision met belongs to the crossing
    obstacle: a null entry and a followed obstacle come before it, another
    decision of its own comes first. *)
Definition crossing_yield_scene : DecisionData :=
  mkDecisionData MainDecisionNone []
    [ None; Some (silent_obstacle [ObjFollow 1]);
      Some (crossing_obstacle [ObjOther; ObjYield 3; ObjFollow 1]);
      Some (silent_obstacle [ObjYield 3]) ].

(** The box of the crossing obstacle at its predicted pose. *)
Definition crossing_box : Box2d := mkBox2d (mkVec2d 20 0) 0 24 2.

(** ** Properties *)

(** *** Arithmetic helpers against the Standard Library *)

Lemma fmax_Qmax (x y : Q) : fmax x y = Qmax x y.
Proof.
  unfold fmax, Qmax, GenericMinMax.gmax.
  destruct (Qlt_le_dec x y) as [Hlt | Hle]; destruct (Qcompare x y) eqn:E;
    try reflexivity.
  - apply Qlt_alt in Hlt. unfold Qcompare in *. congruence.
  - apply Qlt_alt in Hlt. unfold Qcompare in *. congruence.
  - apply Qge_alt in Hle. unfold Qcompare in *. congruence.
Qed.

Lemma fabs_Qabs (x : Q) : fabs x = Qabs x.
Proof.
  unfold fabs. destruct x as [n d].
  destruct (Qlt_le_dec (n # d) 0) as [Hlt | Hle]; unfold Qabs, Qopp; simpl.
  - unfold Qlt in Hlt; simpl in Hlt. f_equal. lia.
  - unfold Qle in Hle; simpl in Hle. f_equal. lia.
Qed.

Lemma Qltb_true (x y : Q) : Qltb x y = true <-> x < y.
Proof.
  unfold Qltb. destruct (Qlt_le_dec x y) as [Hlt | Hle]; split; intro H;
    try reflexivity; try assumption; try discriminate.
  exfalso. apply (Qlt_irrefl x). apply Qlt_le_trans with y; assumption.
Qed.

Lemma Qltb_false (x y : Q) : Qltb x y = false <-> y <= x.
Proof.
  unfold Qltb. destruct (Qlt_le_dec x y) as [Hlt | Hle]; split; intro H;
    try reflexivity; try assumption; try discriminate.
  exfalso. apply (Qlt_irrefl x). apply Qlt_le_trans with y; assumption.
Qed.

Lemma Qgeb_true (x y : Q) : Qgeb x y = true <-> y <= x.
Proof.
  unfold Qgeb. destruct (Qlt_le_dec x y) as [Hlt | Hle]; split; intro H;
    try reflexivity; try assumption; try discriminate.
  exfalso. apply (Qlt_irrefl x). apply Qlt_le_trans with y; assumption.
Qed.

Lemma exact_compare_pos (a b : Q) : (0 < exact_compare a b)%Z -> b < a.
Proof.
  unfold exact_compare. destruct (Qcompare a b) eqn:E; try lia.
  intros _. now apply Qgt_alt.
Qed.

Lemma exact_compare_nonneg (a b : Q) : b <= a -> (0 <= exact_compare a b)%Z.
Proof.
  intro H. apply Qge_alt in H. unfold exact_compare.
  destruct (Qcompare a b); try lia. congruence.
Qed.

(** *** The output vector *)

Lemma back_set_characteristic_length_last
    (l : list StGraphBoundary) (b : StGraphBoundary) (x : Q) :
  back_set_characteristic_length (l ++ [b]) x
  = l ++ [mkStGraphBoundary (points b) (boundary_type b) (Some x)].
Proof.
  unfold back_set_characteristic_length.
  rewrite rev_unit, rev_involutive. reflexivity.
Qed.

Lemma back_set_boundary_type_last
    (l : list StGraphBoundary) (b : StGraphBoundary) (t : BoundaryType) :
  back_set_boundary_type (l ++ [b]) t
  = l ++ [mkStGraphBoundary (points b) t (characteristic_length b)].
Proof.
  unfold back_set_boundary_type.
  rewrite rev_unit, rev_involutive. reflexivity.
Qed.

(** What the three statements of lines 190-193 (and 225-228) leave in the
    vector. *)
Lemma emplace_stop_boundary (l : list StGraphBoundary) (pts : list STPoint) (x : Q) :
  back_set_boundary_type
    (back_set_characteristic_length (emplace_back l pts) x) STOP
  = l ++ [mkStGraphBoundary pts STOP (Some x)].
Proof.
  unfold emplace_back.
  now rewrite back_set_characteristic_length_last, back_set_boundary_type_last.
Qed.

Section MapperProperties.

Variable get_area : list STPoint -> Q.
Variable check_overlap : PathPoint -> VehicleParam -> Box2d -> Q -> bool.
Variable Double_compare : Q -> Q -> Z.
Variable env : Env.

(** [Double::compare] reports a positive result only for a greater first
    argument, and no negative result for one that is not smaller. *)
Hypothesis Double_compare_pos :
  forall a b : Q, (0 < Double_compare a b)%Z -> b < a.
Hypothesis Double_compare_nonneg :
  forall a b : Q, b <= a -> (0 <= Double_compare a b)%Z.

(** *** The stop builder *)

(** The stop builder ends in one of three ways: the projection fails (error,
    vector untouched); it skips (vector untouched); or it appends one
    [STOP] boundary whose area [Double::compare] found positive. *)
Lemma stop_builder_cases (main_stop : MainStop) (reference_line : ReferenceLine)
    (planning_distance planning_time : Q) (boundary : list StGraphBoundary) :
  let r := map_main_decision_stop get_area Double_compare env main_stop reference_line planning_distance planning_time
                        boundary in
  r = (Status_of PLANNING_ERROR, boundary)
  \/ r = (Status_of PLANNING_SKIP, boundary)
  \/ exists pts,
       (0 < Double_compare (get_area pts) 0)%Z
       /\ r = (Status_OK,
               boundary ++ [mkStGraphBoundary pts STOP
                              (Some (boundary_buffer (st_boundary_config env)))]).
Proof.
  unfold map_main_decision_stop.
  destruct (get_point_in_Frenet_frame _ _) as [sl |]; [| now left].
  cbv zeta.
  destruct (if (Double_compare _ 0 <? 0)%Z then false else Qgeb _ _);
    [right; now left |].
  destruct (Double_compare (get_area _) 0 <=? 0)%Z eqn:Harea;
    [right; now left |].
  right; right. eexists. split.
  - apply Z.leb_gt in Harea. exact Harea.
  - now rewrite emplace_stop_boundary.
Qed.

(** C7. When the stop builder projects the stop line and does not skip, it
    returns OK and appends exactly one boundary: tagged [STOP], with the
    vertices (s_min, 0), (s_min, planning_time),
    (s_max + boundary_buffer, planning_time), (s_max, 0), where
    s_min = max(stop_rear_center_s, 0) and
    s_max = max(s_min + 1, planning_distance, reference_line.length).  In
    particular a stop line 50 ahead with backward_routing_distance 5,
    decision_valid_stop_range 1 and front overhang 1 gives s_min = 43 and
    s_max = max(44, planning_distance, reference_line.length). *)
Theorem stop_builder_quadrilateral (main_stop : MainStop)
    (reference_line : ReferenceLine) (planning_distance planning_time : Q)
    (boundary : list StGraphBoundary) (sl_point : SLPoint) :
  let map_point :=
    get_smooth_point env (lane_id main_stop) (line_distance_s main_stop) in
  let r := map_main_decision_stop get_area Double_compare env main_stop reference_line planning_distance planning_time
                        boundary in
  get_point_in_Frenet_frame reference_line (mkVec2d (vx map_point) (vy map_point))
    = Some sl_point ->
  code (fst r) <> PLANNING_SKIP ->
  exists s_min s_max : Q,
    s_min == Qmax (stop_rear_center_s_of env sl_point) 0
    /\ s_max == Qmax (s_min + 1) (Qmax planning_distance (length_of reference_line))
    /\ r = (Status_OK,
            boundary ++
              [mkStGraphBoundary
                 [ mkSTPoint s_min 0;
                   mkSTPoint s_min planning_time;
                   mkSTPoint (s_max + boundary_buffer (st_boundary_config env))
                             planning_time;
                   mkSTPoint s_max 0 ]
                 STOP (Some (boundary_buffer (st_boundary_config env)))])
    /\ (sl_s sl_point == 50 ->
        FLAGS_backward_routing_distance env == 5 ->
        FLAGS_decision_valid_stop_range env == 1 ->
        front_edge_to_center (helper_vehicle_param env) == 1 ->
        s_min == 43
        /\ s_max == Qmax 44 (Qmax planning_distance (length_of reference_line))).
Proof.
  intros map_point r Hproj Hskip. subst r map_point.
  unfold map_main_decision_stop in *. rewrite Hproj in *. cbv zeta in *.
  set (srcs := stop_rear_center_s_of env sl_point) in *.
  destruct (if (Double_compare srcs 0 <? 0)%Z then false else Qgeb _ _);
    [now contradiction Hskip |].
  destruct (Double_compare (get_area _) 0 <=? 0)%Z; [now contradiction Hskip |].
  assert (Hmin : (if Qltb 0 srcs then srcs else 0) == Qmax srcs 0).
  { destruct (Qltb 0 srcs) eqn:E.
    - apply Qltb_true in E. symmetry. apply Q.max_l. now apply Qlt_le_weak.
    - apply Qltb_false in E. symmetry. now apply Q.max_r. }
  exists (if Qltb 0 srcs then srcs else 0).
  exists (fmax ((if Qltb 0 srcs then srcs else 0) + 1)
               (fmax planning_distance (length_of reference_line))).
  split; [exact Hmin |]. split; [now rewrite !fmax_Qmax |].
  split; [now rewrite emplace_stop_boundary |].
  intros H50 Hbrd Hrange Hfront.
  assert (Hs : srcs == 43).
  { subst srcs. unfold stop_rear_center_s_of. simpl.
    rewrite H50, Hbrd, Hrange, Hfront. reflexivity. }
  assert (H43 : (if Qltb 0 srcs then srcs else 0) == 43).
  { rewrite Hmin, Hs. reflexivity. }
  split; [exact H43 |].
  rewrite !fmax_Qmax. apply Q.max_compat; [| reflexivity].
  rewrite H43. reflexivity.
Qed.

(** C8, amended.  When the projection succeeds, [stop_rear_center_s] is not
    negative and is at least reference_line.length minus
    backward_routing_distance, the stop builder returns Skip and leaves the
    vector as it was. *)
Theorem stop_builder_skips_beyond_horizon (main_stop : MainStop)
    (reference_line : ReferenceLine) (planning_distance planning_time : Q)
    (boundary : list StGraphBoundary) (sl_point : SLPoint) :
  let map_point :=
    get_smooth_point env (lane_id main_stop) (line_distance_s main_stop) in
  get_point_in_Frenet_frame reference_line (mkVec2d (vx map_point) (vy map_point))
    = Some sl_point ->
  0 <= stop_rear_center_s_of env sl_point ->
  length_of reference_line - FLAGS_backward_routing_distance env
    <= stop_rear_center_s_of env sl_point ->
  map_main_decision_stop get_area Double_compare env main_stop reference_line planning_distance planning_time boundary
  = (Status_of PLANNING_SKIP, boundary).
Proof.
  intros map_point Hproj Hnonneg Hbeyond. subst map_point.
  unfold map_main_decision_stop. rewrite Hproj. cbv zeta.
  apply Double_compare_nonneg in Hnonneg.
  apply Z.ltb_ge in Hnonneg. rewrite Hnonneg.
  apply Qgeb_true in Hbeyond. now rewrite Hbeyond.
Qed.

(** *** The mission-complete builder *)

(** The mission-complete builder ends in one of two ways: it skips (vector
    untouched) or it appends one [STOP] boundary whose area
    [Double::compare] found positive. *)
Lemma mission_builder_cases (reference_line : ReferenceLine)
    (planning_distance planning_time : Q) (boundary : list StGraphBoundary) :
  let r := map_mission_complete get_area Double_compare env reference_line planning_distance planning_time
                           boundary in
  r = (Status_of PLANNING_SKIP, boundary)
  \/ exists b : StGraphBoundary,
       r = (Status_OK, boundary ++ [b]) /\ boundary_type b = STOP
       /\ (0 < Double_compare (get_area (points b)) 0)%Z.
Proof.
  unfold map_mission_complete. cbv zeta.
  destruct (Double_compare (get_area _) 0 <=? 0)%Z eqn:Harea; [now left |].
  right. rewrite emplace_stop_boundary. eexists. split; [reflexivity |].
  split; [reflexivity |]. simpl. now apply Z.leb_gt in Harea.
Qed.

(** C9. The mission-complete builder either leaves the vector as it was or
    appends one boundary, and that boundary is tagged [STOP]: there is no
    tag of its own for mission completion. *)
Theorem mission_complete_boundary_is_stop (reference_line : ReferenceLine)
    (planning_distance planning_time : Q) (boundary : list StGraphBoundary) :
  let out := snd (map_mission_complete get_area Double_compare env reference_line
                    planning_distance planning_time boundary) in
  out = boundary
  \/ exists b : StGraphBoundary, out = boundary ++ [b] /\ boundary_type b = STOP.
Proof.
  destruct (mission_builder_cases reference_line
              planning_distance planning_time boundary)
    as [H | [b [H [Htag _]]]]; cbv zeta; rewrite H; simpl.
  - now left.
  - right. now exists b.
Qed.

(** *** The overlap search *)

Lemma scan_body_decreases (adc_path_points : list PathPoint) (obs_box : Box2d)
    (s : ScanState) :
  scan_over s = false ->
  (scan_measure (scan_body check_overlap env adc_path_points obs_box s)
   < scan_measure s)%nat.
Proof.
  destruct s as [lo hi fl fh]. unfold scan_over, scan_body, scan_measure. simpl.
  intro H. apply orb_false_iff in H. destruct H as [Hlt Hfound].
  apply negb_false_iff in Hlt. apply Z.ltb_lt in Hlt.
  destruct fl, fh; simpl in *; try discriminate;
    repeat match goal with
           | |- context [check_overlap ?a ?b ?c ?d] =>
               destruct (check_overlap a b c d); simpl
           end; lia.
Qed.

Lemma scan_reaches_exit (budget : nat) (adc_path_points : list PathPoint)
    (obs_box : Box2d) (s : ScanState) :
  (scan_measure s <= budget)%nat ->
  scan_over (scan check_overlap env budget adc_path_points obs_box s) = true.
Proof.
  revert s. induction budget as [| budget IH]; intros s Hm; simpl.
  - destruct (scan_over s) eqn:E; [reflexivity |].
    pose proof (scan_body_decreases adc_path_points obs_box s E). lia.
  - destruct (scan_over s) eqn:E; [exact E |].
    apply IH.
    pose proof (scan_body_decreases adc_path_points obs_box s E). lia.
Qed.

(** The budget of [find_overlap] is enough: the search it returns has left
    the [while] loop. *)
Lemma find_overlap_over (adc_path_points : list PathPoint) (obs_box : Box2d) :
  scan_over (find_overlap check_overlap env adc_path_points obs_box) = true.
Proof.
  unfold find_overlap. destruct adc_path_points as [| p rest].
  - reflexivity.
  - apply scan_reaches_exit. unfold scan_measure.
    cbn [low high find_low find_high].
    assert (Hlen : (1 <= List.length (p :: rest))%nat) by (simpl; lia).
    revert Hlen. generalize (List.length (p :: rest)). intros n Hn. lia.
Qed.

(** *** The dynamic builder *)

Lemma apply_decision_tag (d : ObjectDecisionType) (follow_distance : Q)
    (pts : list STPoint) :
  snd (apply_decision d follow_distance pts) = decision_tag d.
Proof.
  destruct d; reflexivity.
Qed.

(** One pass of the sample body leaves the output vector as it was, or
    appends one boundary: its area passed the guard of line 362 and its tag
    is the one computed for the decision. *)
Lemma sample_body_out (obstacle : Obstacle) (d : ObjectDecisionType)
    (path_data : list PathPoint) (trajectory : PredictionTrajectory) (j : Z)
    (st : BuilderState) :
  let st' := sample_body get_area check_overlap Double_compare env obstacle d
                         path_data trajectory j st in
  boundary_out st' = boundary_out st
  \/ exists pts,
       (0 < Double_compare (get_area pts) 0)%Z
       /\ boundary_out st'
          = boundary_out st ++ [mkStGraphBoundary pts (decision_tag d) None].
Proof.
  unfold sample_body. cbv zeta.
  match goal with
  | |- context [if ?c then mkBuilderState ?l ?u ?b ?o ?k else st] =>
      set (st1 := if c then mkBuilderState l u b o k else st)
  end.
  assert (Hout : boundary_out st1 = boundary_out st).
  { subst st1. destruct (find_high _ && find_low _); reflexivity. }
  destruct (0 <? List.length (lower_points st1))%nat; [| now left].
  match goal with
  | |- context [apply_decision d ?fd ?pts] =>
      pose proof (apply_decision_tag d fd pts) as Htag;
      destruct (apply_decision d fd pts) as [pts' tag]
  end.
  simpl in Htag. subst tag.
  destruct (0 <? Double_compare (get_area pts') 0)%Z eqn:Harea; simpl.
  - right. exists pts'. split; [now apply Z.ltb_lt |].
    unfold emplace_back. rewrite back_set_boundary_type_last, Hout. reflexivity.
  - left. exact Hout.
Qed.

(** The boundaries a run of the loops has appended so far. *)
Lemma loop_step_out (obstacle : Obstacle) (d : ObjectDecisionType)
    (path_data : list PathPoint) (c : LoopPoint * BuilderState) :
  exists added,
    boundary_out
      (snd (loop_step get_area check_overlap Double_compare env obstacle d
                      path_data c))
    = boundary_out (snd c) ++ added
    /\ Forall (fun b => (0 < Double_compare (get_area (points b)) 0)%Z
                        /\ boundary_type b = decision_tag d) added.
Proof.
  destruct c as [pc st]. destruct pc as [i | trajectory i j |]; simpl.
  - destruct (i <? _)%Z; exists []; simpl; now rewrite app_nil_r.
  - destruct (j <? num_of_points trajectory)%Z; simpl.
    + destruct (sample_body_out obstacle d path_data trajectory j st)
        as [Hsame | [pts [Harea Happ]]].
      * exists []. now rewrite app_nil_r.
      * eexists. split; [exact Happ |]. constructor; [| constructor].
        simpl. now split.
    + exists []. now rewrite app_nil_r.
  - exists []. now rewrite app_nil_r.
Qed.

Lemma loop_run_out (n : nat) (obstacle : Obstacle) (d : ObjectDecisionType)
    (path_data : list PathPoint) (c : LoopPoint * BuilderState) :
  exists added,
    boundary_out
      (snd (loop_run get_area check_overlap Double_compare env n obstacle d
                     path_data c))
    = boundary_out (snd c) ++ added
    /\ Forall (fun b => (0 < Double_compare (get_area (points b)) 0)%Z
                        /\ boundary_type b = decision_tag d) added.
Proof.
  revert c. induction n as [| n IH]; intro c; simpl.
  - exists []. now rewrite app_nil_r.
  - destruct (loop_step_out obstacle d path_data c) as [a1 [H1 F1]].
    destruct (IH (loop_step get_area check_overlap Double_compare env obstacle d
                            path_data c)) as [a2 [H2 F2]].
    exists (a1 ++ a2). split.
    + rewrite H2, H1. now rewrite app_assoc.
    + apply Forall_app. now split.
Qed.

Lemma loop_run_succ (n : nat) (obstacle : Obstacle) (d : ObjectDecisionType)
    (path_data : list PathPoint) (c : LoopPoint * BuilderState) :
  loop_run get_area check_overlap Double_compare env (S n) obstacle d path_data c
  = loop_step get_area check_overlap Double_compare env obstacle d path_data
      (loop_run get_area check_overlap Double_compare env n obstacle d path_data c).
Proof.
  revert c. induction n as [| n IH]; intro c; [reflexivity |].
  change (loop_run get_area check_overlap Double_compare env (S (S n)) obstacle d
                   path_data c)
    with (loop_run get_area check_overlap Double_compare env (S n) obstacle d
                   path_data
                   (loop_step get_area check_overlap Double_compare env obstacle d
                              path_data c)).
  rewrite IH. reflexivity.
Qed.

(** Once the inner loop is entered on a trajectory that has a sample, it is
    never left: the counter [j] stays at 0, the outer counter runs on, and
    every step processes sample 0 again. *)
Lemma inner_loop_never_left (obstacle : Obstacle) (d : ObjectDecisionType)
    (path_data : list PathPoint) (trajectory : PredictionTrajectory)
    (st : BuilderState) (n : nat) :
  (0 < num_of_points trajectory)%Z ->
  loop_run get_area check_overlap Double_compare env n obstacle d path_data
           (InnerTest trajectory 0 0, st)
  = (InnerTest trajectory (Z.of_nat n mod 2 ^ 32) 0,
     Nat.iter n (sample_body get_area check_overlap Double_compare env obstacle d
                             path_data trajectory 0) st).
Proof.
  intro Hpts. induction n as [| n IH]; [reflexivity |].
  rewrite loop_run_succ, IH. simpl loop_step.
  apply Z.ltb_lt in Hpts. rewrite Hpts. f_equal.
  unfold uint32_incr. rewrite Z.add_mod_idemp_l by lia.
  f_equal. f_equal. lia.
Qed.

(** A builder whose first predicted trajectory has a sample returns within
    no budget. *)
Lemma dynamic_builder_never_returns (budget : nat) (obstacle : Obstacle)
    (d : ObjectDecisionType) (path_data : list PathPoint)
    (planning_distance planning_time : Q) (boundary : list StGraphBoundary)
    (trajectory : PredictionTrajectory) (rest : list PredictionTrajectory) :
  prediction_trajectories obstacle = trajectory :: rest ->
  (0 < num_of_points trajectory)%Z ->
  map_obstacle_with_prediction_trajectory get_area check_overlap Double_compare
    env budget obstacle d path_data planning_distance planning_time boundary
  = None.
Proof.
  intros Htrajs Hpts. unfold map_obstacle_with_prediction_trajectory.
  destruct budget as [| n]; [reflexivity |].
  unfold builder_start. cbn [loop_run]. cbn [loop_step]. rewrite Htrajs.
  cbn [List.length nth Z.to_nat].
  replace (0 <? Z.of_nat (S (List.length rest)))%Z with true
    by (symmetry; apply Z.ltb_lt; lia).
  now rewrite (inner_loop_never_left obstacle d path_data trajectory _ n Hpts).
Qed.

(** The loops keep [loop_inv]: the builder state changes only inside an
    inner loop that has a sample to process. *)
Lemma loop_step_inv (obstacle : Obstacle) (d : ObjectDecisionType)
    (path_data : list PathPoint) (init : BuilderState)
    (c : LoopPoint * BuilderState) :
  loop_inv init c ->
  loop_inv init (loop_step get_area check_overlap Double_compare env obstacle d
                           path_data c).
Proof.
  destruct c as [pc st]. destruct pc as [i | trajectory i j |]; simpl.
  - intro H. destruct (i <? _)%Z; simpl; [| exact H].
    split; [reflexivity | intros _; exact H].
  - intros [Hj Hst]. subst j.
    destruct (0 <? num_of_points trajectory)%Z eqn:E; simpl.
    + split; [reflexivity |]. apply Z.ltb_lt in E. intro H0. lia.
    + apply Hst. apply Z.ltb_ge in E. unfold num_of_points in *. lia.
  - exact (fun H => H).
Qed.

Lemma loop_run_inv (n : nat) (obstacle : Obstacle) (d : ObjectDecisionType)
    (path_data : list PathPoint) (init : BuilderState)
    (c : LoopPoint * BuilderState) :
  loop_inv init c ->
  loop_inv init (loop_run get_area check_overlap Double_compare env n obstacle d
                          path_data c).
Proof.
  revert c. induction n as [| n IH]; intros c H; simpl; [exact H |].
  apply IH. now apply loop_step_inv.
Qed.

(** Whenever the dynamic builder returns, it returns Skip and has appended
    nothing: a run that processes a sample never leaves the loops. *)
Lemma dynamic_builder_returns_only_skip (budget : nat) (obstacle : Obstacle)
    (d : ObjectDecisionType) (path_data : list PathPoint)
    (planning_distance planning_time : Q) (boundary : list StGraphBoundary)
    (ret : Status) (out : list StGraphBoundary) :
  map_obstacle_with_prediction_trajectory get_area check_overlap Double_compare
    env budget obstacle d path_data planning_distance planning_time boundary
  = Some (ret, out) ->
  ret = mkStatus PLANNING_SKIP "PLANNING_SKIP" /\ out = boundary.
Proof.
  unfold map_obstacle_with_prediction_trajectory.
  pose proof (loop_run_inv budget obstacle d path_data
                (mkBuilderState [] [] [] boundary true)
                (builder_start boundary) eq_refl) as Hinv.
  destruct (loop_run _ _ _ _ _ _ _ _ _) as [pc st].
  destruct pc; try discriminate.
  simpl in Hinv. subst st. simpl. intro H. inversion H. now split.
Qed.

(** Without predicted trajectories the builder returns Skip at once. *)
Lemma dynamic_builder_without_trajectories (budget : nat) (obstacle : Obstacle)
    (d : ObjectDecisionType) (path_data : list PathPoint)
    (planning_distance planning_time : Q) (boundary : list StGraphBoundary) :
  prediction_trajectories obstacle = [] ->
  map_obstacle_with_prediction_trajectory get_area check_overlap Double_compare
    env (S budget) obstacle d path_data planning_distance planning_time boundary
  = Some (mkStatus PLANNING_SKIP "PLANNING_SKIP", boundary).
Proof.
  intro Hnone. unfold map_obstacle_with_prediction_trajectory, builder_start.
  simpl loop_run. rewrite Hnone. simpl.
  assert (Hdone : forall n st,
             loop_run get_area check_overlap Double_compare env n obstacle d
                      path_data (LoopsDone, st) = (LoopsDone, st)).
  { induction n as [| n IH]; intro st; [reflexivity | apply IH]. }
  rewrite Hdone. reflexivity.
Qed.

(** C4. Every boundary that a builder appends has a strictly positive area:
    the stop builder and the mission-complete builder extend the vector only
    by boundaries of positive area, and so does every run of the loops of
    the dynamic builder, however far it has got. *)
Theorem emitted_boundaries_have_positive_area :
  (forall main_stop reference_line planning_distance planning_time boundary,
      exists added,
        snd (map_main_decision_stop get_area Double_compare env main_stop
               reference_line planning_distance planning_time boundary)
        = boundary ++ added
        /\ Forall (fun b => 0 < get_area (points b)) added)
  /\ (forall reference_line planning_distance planning_time boundary,
         exists added,
           snd (map_mission_complete get_area Double_compare env reference_line
                  planning_distance planning_time boundary)
           = boundary ++ added
           /\ Forall (fun b => 0 < get_area (points b)) added)
  /\ (forall n obstacle obj_decision path_data boundary,
         exists added,
           boundary_out
             (snd (loop_run get_area check_overlap Double_compare env n obstacle
                            obj_decision path_data (builder_start boundary)))
           = boundary ++ added
           /\ Forall (fun b => 0 < get_area (points b)) added).
Proof.
  split; [| split].
  - intros main_stop reference_line planning_distance planning_time boundary.
    destruct (stop_builder_cases main_stop reference_line planning_distance
                planning_time boundary) as [H | [H | [pts [Harea H]]]];
      rewrite H; simpl.
    + exists []. now rewrite app_nil_r.
    + exists []. now rewrite app_nil_r.
    + eexists. split; [reflexivity |]. constructor; [| constructor].
      simpl. now apply Double_compare_pos.
  - intros reference_line planning_distance planning_time boundary.
    destruct (mission_builder_cases reference_line
                planning_distance planning_time boundary)
      as [H | [b [H [_ Harea]]]]; rewrite H; simpl.
    + exists []. now rewrite app_nil_r.
    + exists [b]. split; [reflexivity |]. constructor; [| constructor].
      now apply Double_compare_pos.
  - intros n obstacle obj_decision path_data boundary.
    destruct (loop_run_out n obstacle obj_decision path_data
                (builder_start boundary)) as [added [Hout Hall]].
    exists added. split; [exact Hout |].
    eapply Forall_impl; [| exact Hall].
    intros b [Harea _]. now apply Double_compare_pos.
Qed.

(** C2. The loop over the samples of a trajectory does not visit each
    sample at most once.  For the obstacle with one predicted trajectory of
    one sample, [n + 1] steps of the loops stand at the test of the inner
    loop with [j = 0], having processed sample 0 [n] times; so the builder
    returns within no budget. *)
Theorem sample_loop_stays_on_first_sample (d : ObjectDecisionType)
    (path_data : list PathPoint) (planning_distance planning_time : Q)
    (boundary : list StGraphBoundary) (n : nat) :
  loop_run get_area check_overlap Double_compare env (S n)
           (crossing_obstacle [d]) d path_data (builder_start boundary)
  = (InnerTest one_sample_trajectory (Z.of_nat n mod 2 ^ 32) 0,
     Nat.iter n
       (sample_body get_area check_overlap Double_compare env
                    (crossing_obstacle [d]) d path_data one_sample_trajectory 0)
       (mkBuilderState [] [] [] boundary true))
  /\ map_obstacle_with_prediction_trajectory get_area check_overlap
       Double_compare env n (crossing_obstacle [d]) d path_data
       planning_distance planning_time boundary
     = None.
Proof.
  assert (Hrun : forall m,
             loop_run get_area check_overlap Double_compare env (S m)
                      (crossing_obstacle [d]) d path_data (builder_start boundary)
             = (InnerTest one_sample_trajectory (Z.of_nat m mod 2 ^ 32) 0,
                Nat.iter m
                  (sample_body get_area check_overlap Double_compare env
                     (crossing_obstacle [d]) d path_data one_sample_trajectory 0)
                  (mkBuilderState [] [] [] boundary true))).
  { intro m.
    change (loop_run get_area check_overlap Double_compare env (S m)
                     (crossing_obstacle [d]) d path_data (builder_start boundary))
      with (loop_run get_area check_overlap Double_compare env m
                     (crossing_obstacle [d]) d path_data
                     (InnerTest one_sample_trajectory 0 0,
                      mkBuilderState [] [] [] boundary true)).
    apply inner_loop_never_left. reflexivity. }
  split; [apply Hrun |].
  unfold map_obstacle_with_prediction_trajectory.
  destruct n as [| m]; [reflexivity |]. now rewrite Hrun.
Qed.

(** Follow and Yield boundaries do carry the tag of their decision. *)
Lemma follow_and_yield_boundaries_are_tagged (n : nat) (obstacle : Obstacle)
    (d : ObjectDecisionType) (path_data : list PathPoint)
    (boundary : list StGraphBoundary) :
  exists added,
    boundary_out
      (snd (loop_run get_area check_overlap Double_compare env n obstacle d
                     path_data (builder_start boundary)))
    = boundary ++ added
    /\ Forall (fun b => boundary_type b = decision_tag d) added.
Proof.
  destruct (loop_run_out n obstacle d path_data (builder_start boundary))
    as [added [Hout Hall]].
  exists added. split; [exact Hout |].
  eapply Forall_impl; [| exact Hall]. now intros b [_ Htag].
Qed.

(** *** The orchestrator *)

(** A call with a pointer to a vector is rejected at line 57, whatever the
    other arguments are, and the vector is not touched. *)
Lemma get_graph_boundary_non_null (budget : nat) (decision_data : DecisionData)
    (path_data : list PathPoint) (reference_line : ReferenceLine)
    (planning_distance planning_time : Q) (v : list StGraphBoundary) :
  get_graph_boundary get_area check_overlap Double_compare env budget
    decision_data path_data reference_line planning_distance planning_time
    (Some v)
  = Some (Returned (mkStatus PLANNING_ERROR "obs_boundary is NULL."), Some v).
Proof. reflexivity. Qed.

(** A call with a null pointer passes line 57; with a planning time that is
    not negative and two path points it reaches [obs_boundary->clear()]. *)
Lemma get_graph_boundary_null (budget : nat) (decision_data : DecisionData)
    (path_data : list PathPoint) (reference_line : ReferenceLine)
    (planning_distance planning_time : Q) :
  0 <= planning_time ->
  (2 <= List.length path_data)%nat ->
  get_graph_boundary get_area check_overlap Double_compare env budget
    decision_data path_data reference_line planning_distance planning_time None
  = Some (NullDereference, None).
Proof.
  intros Htime Hlen. unfold get_graph_boundary. simpl non_null. cbv iota.
  apply Qltb_false in Htime. rewrite Htime.
  assert (Hn : (Z.of_nat (List.length path_data) <? 2)%Z = false)
    by (apply Z.ltb_ge; lia).
  now rewrite Hn.
Qed.

(** The orchestrator ends within any budget: it never gets to its loops. *)
Lemma get_graph_boundary_ends (budget : nat) (decision_data : DecisionData)
    (path_data : list PathPoint) (reference_line : ReferenceLine)
    (planning_distance planning_time : Q)
    (obs_boundary : option (list StGraphBoundary)) :
  exists r,
    get_graph_boundary get_area check_overlap Double_compare env budget
      decision_data path_data reference_line planning_distance planning_time
      obs_boundary
    = Some r.
Proof.
  unfold get_graph_boundary. destruct obs_boundary as [v |]; simpl.
  - eexists. reflexivity.
  - destruct (Qltb planning_time 0); [eexists; reflexivity |].
    destruct (Z.of_nat (List.length path_data) <? 2)%Z; eexists; reflexivity.
Qed.

(** The decision loop of lines 115-136: when the dynamic builder returns
    for a Yield or Overtake decision, the loop returns OK there, whatever
    decisions follow, with the vector as it was. *)
Lemma map_decisions_short_circuit (budget : nat) (obs : Obstacle)
    (d : ObjectDecisionType) (rest : list ObjectDecisionType)
    (path_data : list PathPoint) (planning_distance planning_time : Q)
    (obs_boundary : list StGraphBoundary) (ret : Status)
    (out : list StGraphBoundary) :
  has_follow d = false ->
  has_overtake d || has_yield d = true ->
  map_obstacle_with_prediction_trajectory get_area check_overlap Double_compare
    env budget obs d path_data planning_distance planning_time obs_boundary
  = Some (ret, out) ->
  map_decisions get_area check_overlap Double_compare env budget obs (d :: rest)
    path_data planning_distance planning_time obs_boundary
  = Some (Return Status_OK obs_boundary).
Proof.
  intros Hfollow Hkind Hret. simpl. rewrite Hfollow, Hkind, Hret.
  apply dynamic_builder_returns_only_skip in Hret.
  destruct Hret as [Hskip Hout]. subst ret out. reflexivity.
Qed.

(** The obstacle loop of lines 110-137 passes a [return] on, whatever
    obstacles follow. *)
Lemma map_dynamic_obstacles_return (budget : nat) (obs : Obstacle)
    (rest : list (option Obstacle)) (path_data : list PathPoint)
    (planning_distance planning_time : Q) (obs_boundary : list StGraphBoundary)
    (ret : Status) (out : list StGraphBoundary) :
  map_decisions get_area check_overlap Double_compare env budget obs
    (Decisions obs) path_data planning_distance planning_time obs_boundary
  = Some (Return ret out) ->
  map_dynamic_obstacles get_area check_overlap Double_compare env budget
    (Some obs :: rest) path_data planning_distance planning_time obs_boundary
  = Some (Return ret out).
Proof.
  intro H. simpl. now rewrite H.
Qed.

(** Lines 77-138 on a scene whose first dynamic obstacle has no predicted
    trajectory and a Yield decision first: they return OK with an empty
    vector, whatever decisions and dynamic obstacles follow. *)
Lemma body_returns_at_first_silent_yield (budget : nat) (id : string)
    (speed len wid distance_s : Q) (decisions : list ObjectDecisionType)
    (others : list (option Obstacle)) (path_data : list PathPoint)
    (reference_line : ReferenceLine) (planning_distance planning_time : Q)
    (v : list StGraphBoundary) :
  let obs := mkObstacle id speed len wid [] (ObjYield distance_s :: decisions) in
  let scene := mkDecisionData MainDecisionNone [] (Some obs :: others) in
  get_graph_boundary_body get_area check_overlap Double_compare env (S budget)
    scene path_data reference_line planning_distance planning_time v
  = Some (Status_OK, []).
Proof.
  intros obs scene.
  assert (Hdyn :
            map_dynamic_obstacles get_area check_overlap Double_compare env
              (S budget) (Some obs :: others) path_data planning_distance
              planning_time []
            = Some (Return Status_OK [])).
  { apply map_dynamic_obstacles_return.
    eapply map_decisions_short_circuit; [reflexivity | reflexivity |].
    now apply dynamic_builder_without_trajectories. }
  unfold get_graph_boundary_body, scene, map_main_decision.
  cbn [main_decision StaticObstacles DynamicObstacles map_static_obstacles].
  now rewrite Hdyn.
Qed.

(** C10. The dynamic builder returns Skip for a Yield decision on an
    obstacle without predicted trajectories, and lines 77-138 then return OK
    with an empty vector, whatever decisions and dynamic obstacles follow;
    but no call of [get_graph_boundary] with a vector gets there: it returns
    the error of line 60. *)
Theorem skip_short_circuit_is_unreachable (budget : nat) (id : string)
    (speed len wid distance_s : Q) (decisions : list ObjectDecisionType)
    (others : list (option Obstacle)) (path_data : list PathPoint)
    (reference_line : ReferenceLine) (planning_distance planning_time : Q)
    (v : list StGraphBoundary) :
  let obs := mkObstacle id speed len wid [] (ObjYield distance_s :: decisions) in
  let scene := mkDecisionData MainDecisionNone [] (Some obs :: others) in
  map_obstacle_with_prediction_trajectory get_area check_overlap Double_compare
    env (S budget) obs (ObjYield distance_s) path_data planning_distance
    planning_time []
  = Some (mkStatus PLANNING_SKIP "PLANNING_SKIP", [])
  /\ get_graph_boundary_body get_area check_overlap Double_compare env (S budget)
       scene path_data reference_line planning_distance planning_time v
     = Some (Status_OK, [])
  /\ get_graph_boundary get_area check_overlap Double_compare env (S budget)
       scene path_data reference_line planning_distance planning_time (Some v)
     = Some (Returned (mkStatus PLANNING_ERROR "obs_boundary is NULL."), Some v).
Proof.
  intros obs scene. split; [| split].
  - now apply dynamic_builder_without_trajectories.
  - apply body_returns_at_first_silent_yield.
  - reflexivity.
Qed.

End MapperProperties.

(** *** The Yield adjustment *)

(** C5, amended.  With dis = |distance_s|, the Yield adjustment sets v0.s
    to max(v0.s - 2, 0) if v0.s - dis < 0 and to max(v0.s - dis, 0)
    otherwise.  It then sets v1.s from the new v0.s: to max(v0.s - 4, 0) if
    v1's own station satisfies v1.s - dis < 0, and to max(v0.s - dis, 0)
    otherwise.  The times and the two upper vertices stay, and the tag is
    [YIELD]. *)
Theorem yield_adjustment (distance_s follow_distance : Q)
    (v0 v1 v2 v3 : STPoint) :
  let dis := Qabs distance_s in
  let s0 :=
    if Qlt_le_dec (st_s v0 - dis) 0
    then Qmax (st_s v0 - 2) 0 else Qmax (st_s v0 - dis) 0 in
  let s1 :=
    if Qlt_le_dec (st_s v1 - dis) 0
    then Qmax (s0 - 4) 0 else Qmax (s0 - dis) 0 in
  apply_decision (ObjYield distance_s) follow_distance [v0; v1; v2; v3]
  = ([mkSTPoint s0 (st_t v0); mkSTPoint s1 (st_t v1); v2; v3], YIELD).
Proof.
  unfold apply_decision, Qltb, at_set_s, at_, set_s. cbv zeta.
  rewrite fabs_Qabs, !fmax_Qmax. cbn [update_at nth st_s st_t].
  destruct (Qlt_le_dec (st_s v0 - Qabs distance_s) 0);
    cbn [update_at nth st_s st_t];
    destruct (Qlt_le_dec (st_s v1 - Qabs distance_s) 0);
    cbn [update_at nth st_s st_t]; reflexivity.
Qed.

(** *** Concrete calls *)

(** C1. A call that meets every precondition (a pointer to an empty vector,
    planning time 8, four path points) does fail with the error of line 60;
    and the same call with a null pointer is not rejected: it gets to
    [obs_boundary->clear()]. *)
Theorem valid_call_is_rejected :
  get_graph_boundary signed_area axis_aligned_overlap exact_compare sample_env 10
    empty_scene sample_path (straight_line 100) 80 8 (Some [])
  = Some (Returned (mkStatus PLANNING_ERROR "obs_boundary is NULL."), Some [])
  /\ get_graph_boundary signed_area axis_aligned_overlap exact_compare sample_env
       10 empty_scene sample_path (straight_line 100) 80 8 None
     = Some (NullDereference, None).
Proof.
  split.
  - apply get_graph_boundary_non_null.
  - apply get_graph_boundary_null; [discriminate | simpl; lia].
Qed.

(** C3. On the scene of two yielding obstacles, mapping the first one does
    not succeed (the builder returns Skip), and lines 77-138 return OK with
    an empty vector, the second obstacle not looked at; but the call of
    [get_graph_boundary] itself returns the error of line 60, not OK. *)
Theorem two_yield_scene_is_rejected (budget : nat) :
  map_obstacle_with_prediction_trajectory signed_area axis_aligned_overlap
    exact_compare sample_env (S budget) (silent_obstacle [ObjYield 3])
    (ObjYield 3) sample_path 80 8 []
  = Some (mkStatus PLANNING_SKIP "PLANNING_SKIP", [])
  /\ get_graph_boundary_body signed_area axis_aligned_overlap exact_compare
       sample_env (S budget) two_yield_scene sample_path (straight_line 100)
       80 8 []
     = Some (Status_OK, [])
  /\ get_graph_boundary signed_area axis_aligned_overlap exact_compare sample_env
       (S budget) two_yield_scene sample_path (straight_line 100) 80 8 (Some [])
     = Some (Returned (mkStatus PLANNING_ERROR "obs_boundary is NULL."), Some []).
Proof.
  split; [| split].
  - now apply dynamic_builder_without_trajectories.
  - apply (body_returns_at_first_silent_yield signed_area axis_aligned_overlap
             exact_compare sample_env budget "silent" 0 4 2 3 []
             [Some (crossing_obstacle [ObjYield 3])]).
  - apply get_graph_boundary_non_null.
Qed.

(** The stop scenario evaluated: stop line at 50, reference line of length
    100, planning distance 80, planning time 8. *)
Example stop_at_50_boundary :
  map_main_decision_stop signed_area exact_compare sample_env stop_at_50
    (straight_line 100) 80 8 []
  = (Status_OK,
     [mkStGraphBoundary
        [mkSTPoint 43 0; mkSTPoint 43 8; mkSTPoint 101 8; mkSTPoint 100 0]
        STOP (Some 1)]).
Proof. reflexivity. Qed.

(** The stop builder's quadrilateral on that scenario. *)
Lemma stop_builder_quadrilateral_witness :
  get_point_in_Frenet_frame (straight_line 100)
    (mkVec2d (vx (get_smooth_point sample_env "lane" 50))
             (vy (get_smooth_point sample_env "lane" 50)))
  = Some (mkSLPoint 50 0)
  /\ code (fst (map_main_decision_stop signed_area exact_compare sample_env
                  stop_at_50 (straight_line 100) 80 8 []))
     <> PLANNING_SKIP
  /\ exists s_min s_max : Q,
       s_min == Qmax (stop_rear_center_s_of sample_env (mkSLPoint 50 0)) 0
       /\ s_max == Qmax (s_min + 1) (Qmax 80 100)
       /\ map_main_decision_stop signed_area exact_compare sample_env stop_at_50
            (straight_line 100) 80 8 []
          = (Status_OK,
             [] ++
               [mkStGraphBoundary
                  [ mkSTPoint s_min 0; mkSTPoint s_min 8;
                    mkSTPoint (s_max + 1) 8; mkSTPoint s_max 0 ]
                  STOP (Some 1)])
       /\ (50 == 50 -> 5 == 5 -> 1 == 1 -> 1 == 1 ->
           s_min == 43 /\ s_max == Qmax 44 (Qmax 80 100)).
Proof.
  assert (Hproj :
            get_point_in_Frenet_frame (straight_line 100)
              (mkVec2d (vx (get_smooth_point sample_env "lane" 50))
                       (vy (get_smooth_point sample_env "lane" 50)))
            = Some (mkSLPoint 50 0)) by reflexivity.
  assert (Hskip :
            code (fst (map_main_decision_stop signed_area exact_compare sample_env
                         stop_at_50 (straight_line 100) 80 8 []))
            <> PLANNING_SKIP) by (vm_compute; discriminate).
  split; [exact Hproj |]. split; [exact Hskip |].
  exact (stop_builder_quadrilateral signed_area exact_compare sample_env
           stop_at_50 (straight_line 100) 80 8 [] (mkSLPoint 50 0) Hproj Hskip).
Defined.

(** C8 as stated fails.  With a reference line of length 3 and a stop line
    at 6, [stop_rear_center_s] is -1, which is at least 3 - 5 = -2; yet the
    stop builder does not skip: it returns OK and appends a boundary. *)
Lemma stop_skip_counterexample :
  length_of (straight_line 3) - FLAGS_backward_routing_distance sample_env
    <= stop_rear_center_s_of sample_env (mkSLPoint 6 0)
  /\ ~ (let r := map_main_decision_stop signed_area exact_compare sample_env
                   (mkMainStop "lane" 6) (straight_line 3) 80 8 [] in
        code (fst r) = PLANNING_SKIP /\ snd r = []).
Proof.
  split.
  - vm_compute. discriminate.
  - vm_compute. intros [H _]. discriminate H.
Qed.

(** The skip beyond the horizon at work: stop line at 50 on a reference
    line of length 40, so that [stop_rear_center_s] is 43, at least 40 - 5. *)
Lemma stop_builder_skips_beyond_horizon_witness :
  get_point_in_Frenet_frame (straight_line 40)
    (mkVec2d (vx (get_smooth_point sample_env "lane" 50))
             (vy (get_smooth_point sample_env "lane" 50)))
  = Some (mkSLPoint 50 0)
  /\ 0 <= stop_rear_center_s_of sample_env (mkSLPoint 50 0)
  /\ length_of (straight_line 40) - FLAGS_backward_routing_distance sample_env
     <= stop_rear_center_s_of sample_env (mkSLPoint 50 0)
  /\ map_main_decision_stop signed_area exact_compare sample_env stop_at_50
       (straight_line 40) 80 8 []
     = (Status_of PLANNING_SKIP, []).
Proof.
  assert (Hproj :
            get_point_in_Frenet_frame (straight_line 40)
              (mkVec2d (vx (get_smooth_point sample_env "lane" 50))
                       (vy (get_smooth_point sample_env "lane" 50)))
            = Some (mkSLPoint 50 0)) by reflexivity.
  assert (Hnonneg : 0 <= stop_rear_center_s_of sample_env (mkSLPoint 50 0))
    by (vm_compute; discriminate).
  assert (Hbeyond :
            length_of (straight_line 40) - FLAGS_backward_routing_distance sample_env
            <= stop_rear_center_s_of sample_env (mkSLPoint 50 0))
    by (vm_compute; discriminate).
  split; [exact Hproj |]. split; [exact Hnonneg |]. split; [exact Hbeyond |].
  exact (stop_builder_skips_beyond_horizon signed_area exact_compare sample_env
           exact_compare_nonneg stop_at_50 (straight_line 40) 80 8 []
           (mkSLPoint 50 0) Hproj Hnonneg Hbeyond).
Defined.

(** Two steps of the loops on the crossing obstacle with a Follow decision:
    the first sample has been processed and its boundary appended. *)
Example follow_run_appends :
  boundary_out
    (snd (loop_run signed_area axis_aligned_overlap exact_compare sample_env 2
            (crossing_obstacle [ObjFollow 3]) (ObjFollow 3) sample_path
            (builder_start [])))
  = [mkStGraphBoundary
       [mkSTPoint 1 1; mkSTPoint 1 1; mkSTPoint 33 1; mkSTPoint 32 (- (1))]
       FOLLOW None].
Proof. reflexivity. Qed.

(** Positive areas at work: the stop scenario and the Follow run above,
    with the exact comparison in the place of [Double::compare]. *)
Lemma emitted_boundaries_have_positive_area_witness :
  (forall a b : Q, (0 < exact_compare a b)%Z -> b < a)
  /\ (exists added,
         snd (map_main_decision_stop signed_area exact_compare sample_env
                stop_at_50 (straight_line 100) 80 8 [])
         = [] ++ added
         /\ Forall (fun b => 0 < signed_area (points b)) added)
  /\ (exists added,
         boundary_out
           (snd (loop_run signed_area axis_aligned_overlap exact_compare
                   sample_env 2 (crossing_obstacle [ObjFollow 3]) (ObjFollow 3)
                   sample_path (builder_start [])))
         = [] ++ added
         /\ Forall (fun b => 0 < signed_area (points b)) added).
Proof.
  pose proof (emitted_boundaries_have_positive_area signed_area
                axis_aligned_overlap exact_compare sample_env exact_compare_pos)
    as [Hstop [_ Hdyn]].
  split; [exact exact_compare_pos |]. split.
  - exact (Hstop stop_at_50 (straight_line 100) 80 8 []).
  - exact (Hdyn 2%nat (crossing_obstacle [ObjFollow 3]) (ObjFollow 3)
             sample_path []).
Defined.

(** Two steps of the loops on the crossing obstacle with a Yield decision
    of distance 3: both lower vertices start from station 8; the first
    becomes 5 and the second 2. *)
Example yield_run_polygon :
  boundary_points
    (snd (loop_run signed_area axis_aligned_overlap exact_compare sample_env 2
            (crossing_obstacle [ObjYield 3]) (ObjYield 3) sample_path
            (builder_start [])))
  = [mkSTPoint 5 1; mkSTPoint 2 1; mkSTPoint 33 1; mkSTPoint 32 1].
Proof. reflexivity. Qed.

(** C5 as stated fails.  On the polygon of that run, with dis = 3, the
    claim puts both lower vertices at max(8 - 3, 0) = 5; the code puts the
    second one at 2. *)
Lemma yield_adjustment_counterexample :
  let v0 := mkSTPoint 8 1 in
  let v1 := mkSTPoint 8 1 in
  let dis := Qabs 3 in
  let claimed :=
    if Qlt_le_dec (st_s v0 - dis) 0
    then Qmax (st_s v0 - 2) 0 else Qmax (st_s v0 - dis) 0 in
  let out :=
    fst (apply_decision (ObjYield 3) (- (1))
           [v0; v1; mkSTPoint 33 1; mkSTPoint 32 1]) in
  ~ (st_s (at_ out 0) == claimed /\ st_s (at_ out 1) == claimed).
Proof.
  vm_compute. intros [_ H]. discriminate H.
Qed.

(** ** Further properties *)

Section MapperFurtherProperties.

Variable get_area : list STPoint -> Q.
Variable check_overlap : PathPoint -> VehicleParam -> Box2d -> Q -> bool.
Variable Double_compare : Q -> Q -> Z.
Variable env : Env.

Hypothesis Double_compare_pos :
  forall a b : Q, (0 < Double_compare a b)%Z -> b < a.

(** [Double::compare] reports a negative result for a smaller first
    argument. *)
Hypothesis Double_compare_neg :
  forall a b : Q, a < b -> (Double_compare a b < 0)%Z.

(** A polygon whose vertices all lie at one time has no positive area. *)
Hypothesis get_area_flat :
  forall (pts : list STPoint) (t : Q),
    Forall (fun p => st_t p = t) pts -> get_area pts <= 0.

(** *** The overlap search *)

Lemma scan_body_inv (adc_path_points : list PathPoint) (obs_box : Box2d)
    (s : ScanState) :
  scan_inv check_overlap env adc_path_points obs_box s ->
  scan_over s = false ->
  scan_inv check_overlap env adc_path_points obs_box
           (scan_body check_overlap env adc_path_points obs_box s).
Proof.
  destruct s as [lo hi fl fh]. unfold scan_inv, scan_over, scan_body, overlaps_at.
  simpl. intros (H1 & H2 & H3 & H4 & H5 & H6 & H7) Hover.
  apply orb_false_iff in Hover. destruct Hover as [Hlt Hfound].
  apply negb_false_iff in Hlt. apply Z.ltb_lt in Hlt.
  destruct fl, fh; simpl in *; try discriminate;
    repeat match goal with
           | |- context [check_overlap ?a ?b ?c ?d] =>
               let E := fresh "E" in
               destruct (check_overlap a b c d) eqn:E; simpl
           end;
    repeat split; intros; try lia; try discriminate; auto;
    try match goal with
        | Hk : (0 <= ?k < lo + 1)%Z |- _ =>
            destruct (Z.eq_dec k lo) as [-> | Hne];
            [assumption | apply H3; lia]
        | Hk : (hi - 1 < ?k <= _)%Z |- _ =>
            destruct (Z.eq_dec k hi) as [-> | Hne];
            [assumption | apply H4; lia]
        end.
Qed.

Lemma scan_keeps_inv (budget : nat) (adc_path_points : list PathPoint)
    (obs_box : Box2d) (s : ScanState) :
  scan_inv check_overlap env adc_path_points obs_box s ->
  scan_inv check_overlap env adc_path_points obs_box
           (scan check_overlap env budget adc_path_points obs_box s).
Proof.
  revert s. induction budget as [| budget IH]; intros s Hinv; simpl; [exact Hinv |].
  destruct (scan_over s) eqn:E; [exact Hinv |].
  apply IH. now apply scan_body_inv.
Qed.

Lemma find_overlap_inv (adc_path_points : list PathPoint) (obs_box : Box2d) :
  scan_inv check_overlap env adc_path_points obs_box
           (find_overlap check_overlap env adc_path_points obs_box).
Proof.
  unfold find_overlap. apply scan_keeps_inv. unfold scan_inv. simpl.
  repeat split; intros; try lia; discriminate.
Qed.

(** X1. When the overlap search reports both indices found, [low] and
    [high] are indices of the path with [low < high], the footprint test
    holds at both, and it fails at every index before [low] and after
    [high]: they are the first and the last overlapping index. *)
Theorem find_overlap_first_and_last (adc_path_points : list PathPoint)
    (obs_box : Box2d) :
  let r := find_overlap check_overlap env adc_path_points obs_box in
  let n := Z.of_nat (List.length adc_path_points) in
  find_low r = true ->
  find_high r = true ->
  (0 <= low r < high r)%Z /\ (high r <= n - 1)%Z
  /\ overlaps_at check_overlap env adc_path_points obs_box (low r) = true
  /\ overlaps_at check_overlap env adc_path_points obs_box (high r) = true
  /\ (forall k, (0 <= k < low r)%Z ->
        overlaps_at check_overlap env adc_path_points obs_box k = false)
  /\ (forall k, (high r < k <= n - 1)%Z ->
        overlaps_at check_overlap env adc_path_points obs_box k = false).
Proof.
  intros r n Hlow Hhigh.
  destruct (find_overlap_inv adc_path_points obs_box)
    as (H1 & H2 & H3 & H4 & H5 & H6 & H7).
  fold r in H1, H2, H3, H4, H5, H6, H7.
  specialize (H7 Hlow Hhigh).
  repeat split; auto; lia.
Qed.

(** X2. When the footprint test holds at two different path indices
    [a < b], the overlap search finds both of its indices, with
    [low <= a] and [b <= high].  (With X1: the search succeeds exactly when
    two different path points overlap.) *)
Theorem find_overlap_finds_two (adc_path_points : list PathPoint)
    (obs_box : Box2d) (a b : Z) :
  let r := find_overlap check_overlap env adc_path_points obs_box in
  (0 <= a < b)%Z ->
  (b <= Z.of_nat (List.length adc_path_points) - 1)%Z ->
  overlaps_at check_overlap env adc_path_points obs_box a = true ->
  overlaps_at check_overlap env adc_path_points obs_box b = true ->
  find_low r = true /\ find_high r = true
  /\ (low r <= a)%Z /\ (b <= high r)%Z.
Proof.
  intros r Hab Hb Hova Hovb.
  destruct (find_overlap_inv adc_path_points obs_box)
    as (H1 & H2 & H3 & H4 & H5 & H6 & H7).
  fold r in H1, H2, H3, H4, H5, H6, H7.
  assert (Hla : (low r <= a)%Z).
  { destruct (Z_le_gt_dec (low r) a) as [Hle | Hgt]; [exact Hle |].
    rewrite H3 in Hova by lia. discriminate. }
  assert (Hbh : (b <= high r)%Z).
  { destruct (Z_le_gt_dec b (high r)) as [Hle | Hgt]; [exact Hle |].
    rewrite H4 in Hovb by lia. discriminate. }
  pose proof (find_overlap_over check_overlap env adc_path_points obs_box)
    as Hover.
  fold r in Hover. unfold scan_over in Hover.
  apply orb_true_iff in Hover. destruct Hover as [Hexit | Hboth].
  - apply negb_true_iff in Hexit. apply Z.ltb_ge in Hexit. lia.
  - apply andb_true_iff in Hboth. destruct Hboth as [Hl Hh].
    repeat split; assumption.
Qed.

Lemma scan_stays_over (budget : nat) (adc_path_points : list PathPoint)
    (obs_box : Box2d) (s : ScanState) :
  scan_over s = true ->
  scan check_overlap env budget adc_path_points obs_box s = s.
Proof.
  intro H. destruct budget; simpl; [reflexivity | now rewrite H].
Qed.

Lemma scan_more_budget (budget extra : nat) (adc_path_points : list PathPoint)
    (obs_box : Box2d) (s : ScanState) :
  scan_over (scan check_overlap env budget adc_path_points obs_box s) = true ->
  scan check_overlap env (budget + extra) adc_path_points obs_box s
  = scan check_overlap env budget adc_path_points obs_box s.
Proof.
  revert s. induction budget as [| budget IH]; intros s H; simpl in *.
  - now apply scan_stays_over.
  - destruct (scan_over s) eqn:E; [reflexivity |]. now apply IH.
Qed.

(** X3. The [while] loop of the overlap search ends within
    [num_of_points + 1] passes: the search state then meets the exit
    condition, and allowing more passes changes nothing. *)
Theorem overlap_search_terminates (adc_path_points : list PathPoint)
    (obs_box : Box2d) (extra : nat) :
  let start :=
    mkScanState 0 (Z.of_nat (List.length adc_path_points) - 1) false false in
  let r := scan check_overlap env (S (List.length adc_path_points))
                adc_path_points obs_box start in
  scan_over r = true
  /\ scan check_overlap env (S (List.length adc_path_points) + extra)
          adc_path_points obs_box start
     = r.
Proof.
  intros start r.
  assert (Hover : scan_over r = true)
    by apply (find_overlap_over check_overlap env adc_path_points obs_box).
  split; [exact Hover |]. now apply scan_more_budget.
Qed.


(** *** The decision adjustments *)

(** X4. The Follow adjustment moves both lower vertices back by
    [follow_distance], which is at least the front overhang plus
    |distance_s| and at least the front overhang plus speed times minimal
    follow time; so each lower station drops by at least the front
    overhang.  The third vertex stays, the fourth keeps its station and
    gets the time -1, and the tag is [FOLLOW]. *)
Theorem follow_adjustment (obstacle : Obstacle) (distance_s : Q)
    (v0 v1 v2 v3 : STPoint) :
  let fd := follow_distance_of env obstacle (ObjFollow distance_s) in
  let front := front_edge_to_center (vehicle_param env) in
  apply_decision (ObjFollow distance_s) fd [v0; v1; v2; v3]
  = ([ mkSTPoint (st_s v0 - fd) (st_t v0); mkSTPoint (st_s v1 - fd) (st_t v1);
       v2; mkSTPoint (st_s v3) (- (1)) ], FOLLOW)
  /\ Qabs distance_s + front <= fd
  /\ Speed obstacle * minimal_follow_time (st_boundary_config env) + front <= fd
  /\ st_s v0 - fd <= st_s v0 - front
  /\ st_s v1 - fd <= st_s v1 - front.
Proof.
  intros fd front. subst fd front. unfold follow_distance_of.
  rewrite fmax_Qmax, fabs_Qabs.
  set (m := Qmax (Speed obstacle * minimal_follow_time (st_boundary_config env))
                 (Qabs distance_s)).
  assert (H1 : Qabs distance_s <= m) by apply Q.le_max_r.
  assert (H2 : Speed obstacle * minimal_follow_time (st_boundary_config env) <= m)
    by apply Q.le_max_l.
  pose proof (Qabs_nonneg distance_s) as H0.
  split; [reflexivity |].
  repeat split; lra.
Qed.

(** X5. The Overtake adjustment leaves the two lower vertices as they are
    and moves the two upper vertices forward by |distance_s|, so that their
    stations never decrease; all times stay. *)
Theorem overtake_adjustment (distance_s follow_distance : Q)
    (v0 v1 v2 v3 : STPoint) :
  let dis := Qabs distance_s in
  fst (apply_decision (ObjOvertake distance_s) follow_distance [v0; v1; v2; v3])
  = [ v0; v1; mkSTPoint (st_s v2 + dis) (st_t v2);
      mkSTPoint (st_s v3 + dis) (st_t v3) ]
  /\ st_s v2 <= st_s v2 + dis
  /\ st_s v3 <= st_s v3 + dis.
Proof.
  intro dis. subst dis. unfold apply_decision. rewrite fabs_Qabs.
  pose proof (Qabs_nonneg distance_s) as H0.
  split; [reflexivity |]. split; lra.
Qed.

(** X6. After the Yield adjustment the two lower stations are not
    negative, the second is not beyond the first, and the first is not
    beyond where it was (or 0): 0 <= v1.s <= v0.s <= max(old v0.s, 0).  The
    upper vertices and all times stay. *)
Theorem yield_adjustment_bounds (distance_s follow_distance : Q)
    (v0 v1 v2 v3 : STPoint) :
  let pts :=
    fst (apply_decision (ObjYield distance_s) follow_distance [v0; v1; v2; v3]) in
  0 <= st_s (at_ pts 1)
  /\ st_s (at_ pts 1) <= st_s (at_ pts 0)
  /\ st_s (at_ pts 0) <= Qmax (st_s v0) 0
  /\ st_t (at_ pts 0) = st_t v0 /\ st_t (at_ pts 1) = st_t v1
  /\ at_ pts 2 = v2 /\ at_ pts 3 = v3
  /\ List.length pts = 4%nat.
Proof.
  intro pts. subst pts.
  unfold apply_decision, Qltb, at_set_s, at_, set_s. cbv zeta.
  rewrite fabs_Qabs, !fmax_Qmax. cbn [update_at nth st_s st_t].
  pose proof (Qabs_nonneg distance_s) as Hdis.
  assert (Hclamp : forall x c : Q, 0 <= c -> Qmax (x - c) 0 <= Qmax x 0).
  { intros x c Hc. apply Q.max_le_compat_r. lra. }
  assert (Hdown : forall x c : Q, 0 <= c -> 0 <= x -> Qmax (x - c) 0 <= x).
  { intros x c Hc Hx. apply Q.max_lub; lra. }
  assert (Hpos : forall x : Q, 0 <= Qmax x 0) by (intro x; apply Q.le_max_r).
  destruct (Qlt_le_dec (st_s v0 - Qabs distance_s) 0);
    cbn [update_at nth st_s st_t fst];
    destruct (Qlt_le_dec (st_s v1 - Qabs distance_s) 0);
    cbn [update_at nth st_s st_t fst List.length];
    repeat split; try reflexivity; try apply Hpos;
    try (apply Hdown; [lra | apply Hpos]);
    try (apply Hclamp; lra).
Qed.


(** *** The states of the dynamic builder *)

Lemma update_at_length (k : nat) (f : STPoint -> STPoint) (v : list STPoint) :
  List.length (update_at k f v) = List.length v.
Proof.
  revert k. induction v as [| p r IH]; intro k; [now destruct k |].
  destruct k; simpl; [reflexivity | now rewrite IH].
Qed.

Lemma update_at_times (k : nat) (x : Q) (v : list STPoint) :
  map st_t (update_at k (fun p => set_s p x) v) = map st_t v.
Proof.
  revert k. induction v as [| p r IH]; intro k; [now destruct k |].
  destruct k; simpl; [reflexivity | now rewrite IH].
Qed.

Lemma apply_decision_length (d : ObjectDecisionType) (follow_distance : Q)
    (pts : list STPoint) :
  List.length (fst (apply_decision d follow_distance pts)) = List.length pts.
Proof.
  destruct d; unfold apply_decision, at_set_s, at_set_t; cbv zeta;
    repeat match goal with
           | |- context [if ?c then _ else _] => destruct c
           end;
    cbn [fst]; now rewrite ?update_at_length.
Qed.

Lemma apply_decision_times (d : ObjectDecisionType) (follow_distance : Q)
    (pts : list STPoint) :
  has_follow d = false ->
  map st_t (fst (apply_decision d follow_distance pts)) = map st_t pts.
Proof.
  destruct d; try discriminate; intros _;
    unfold apply_decision, at_set_s; cbv zeta;
    repeat match goal with
           | |- context [if ?c then _ else _] => destruct c
           end;
    cbn [fst]; now rewrite ?update_at_times.
Qed.

Lemma Forall_at_0 (P : STPoint -> Prop) (v : list STPoint) :
  Forall P v -> v <> [] -> P (at_ v 0).
Proof.
  intros H Hne. destruct v as [| p r]; [congruence |].
  now inversion H.
Qed.

Lemma Forall_back (P : STPoint -> Prop) (v : list STPoint) :
  Forall P v -> v <> [] -> P (back v).
Proof.
  unfold back. induction v as [| p r IH]; intros H Hne; [congruence |].
  inversion H; subst. destruct r as [| q r']; [assumption |].
  apply IH; [assumption | discriminate].
Qed.

(** What one pass of the sample body does to the builder state. *)
Lemma sample_body_cases (obstacle : Obstacle) (d : ObjectDecisionType)
    (path_data : list PathPoint) (trajectory : PredictionTrajectory) (j : Z)
    (st : BuilderState) :
  let t := sample_time env trajectory j in
  let st' := sample_body get_area check_overlap Double_compare env obstacle d
                         path_data trajectory j st in
  exists ext_l ext_u,
    ((ext_l = [] /\ ext_u = [])
     \/ exists sl su, ext_l = [mkSTPoint sl t] /\ ext_u = [mkSTPoint su t])
    /\ lower_points st' = lower_points st ++ ext_l
    /\ upper_points st' = upper_points st ++ ext_u
    /\ ((lower_points st' = [] /\ boundary_points st' = boundary_points st
         /\ boundary_out st' = boundary_out st /\ skip st' = skip st)
        \/ (lower_points st' <> []
            /\ let r :=
                 apply_decision d (follow_distance_of env obstacle d)
                   (envelope_polygon env (lower_points st') (upper_points st')) in
               boundary_points st' = fst r
               /\ (((0 < Double_compare (get_area (fst r)) 0)%Z
                    /\ boundary_out st'
                       = boundary_out st ++ [mkStGraphBoundary (fst r) (snd r) None]
                    /\ skip st' = false)
                   \/ (~ (0 < Double_compare (get_area (fst r)) 0)%Z
                       /\ boundary_out st' = boundary_out st
                       /\ skip st' = skip st)))).
Proof.
  intros t st'. subst t st'. unfold sample_body, sample_time. cbv zeta.
  match goal with
  | |- context [if ?c then mkBuilderState ?l ?u ?b ?o ?k else st] =>
      set (found := c);
      set (st1 := if found then mkBuilderState l u b o k else st)
  end.
  assert (Hst1 :
            exists ext_l ext_u,
              ((ext_l = [] /\ ext_u = [])
               \/ exists sl su,
                    ext_l = [mkSTPoint sl
                               (relative_time (trajectory_point_at trajectory j)
                                + start_timestamp trajectory
                                - vehicle_state_timestamp env)]
                    /\ ext_u = [mkSTPoint su
                                  (relative_time (trajectory_point_at trajectory j)
                                   + start_timestamp trajectory
                                   - vehicle_state_timestamp env)])
              /\ lower_points st1 = lower_points st ++ ext_l
              /\ upper_points st1 = upper_points st ++ ext_u
              /\ boundary_points st1 = boundary_points st
              /\ boundary_out st1 = boundary_out st /\ skip st1 = skip st).
  { subst st1. destruct found.
    - eexists. eexists. split; [right; eexists; eexists; split; reflexivity |].
      simpl. repeat split; reflexivity.
    - exists [], []. split; [now left |]. rewrite !app_nil_r.
      repeat split; reflexivity. }
  destruct Hst1 as (ext_l & ext_u & Hext & Hl & Hu & Hbp & Hout & Hskip).
  clearbody st1. clear found.
  exists ext_l, ext_u. split; [exact Hext |].
  destruct (0 <? List.length (lower_points st1))%nat eqn:Hlen.
  - apply Nat.ltb_lt in Hlen.
    fold (envelope_polygon env (lower_points st1) (upper_points st1)).
    destruct (apply_decision d (follow_distance_of env obstacle d)
                (envelope_polygon env (lower_points st1) (upper_points st1)))
      as [pts tag] eqn:Hr.
    destruct (0 <? Double_compare (get_area pts) 0)%Z eqn:Harea;
      cbn [lower_points upper_points boundary_points boundary_out skip];
      (split; [exact Hl |]); (split; [exact Hu |]); right;
      (split; [intro Hnil; rewrite Hnil in Hlen; simpl in Hlen; lia |]);
      rewrite Hr; cbn [fst snd]; (split; [reflexivity |]).
    + left. split; [now apply Z.ltb_lt |]. split; [| reflexivity].
      unfold emplace_back. rewrite back_set_boundary_type_last, Hout. reflexivity.
    + right. split; [| split; assumption].
      intro H. apply Z.ltb_lt in H. congruence.
  - split; [exact Hl |]. split; [exact Hu |]. left.
    apply Nat.ltb_ge in Hlen.
    repeat split; try assumption.
    destruct (lower_points st1); [reflexivity | simpl in Hlen; lia].
Qed.

Lemma sample_body_shape (obstacle : Obstacle) (d : ObjectDecisionType)
    (path_data : list PathPoint) (trajectory : PredictionTrajectory) (j : Z)
    (boundary : list StGraphBoundary) (st : BuilderState) :
  builder_shape boundary st ->
  builder_shape boundary
    (sample_body get_area check_overlap Double_compare env obstacle d path_data
                 trajectory j st).
Proof.
  intros (Hlen & Hbp & added & Hout & Hall).
  destruct (sample_body_cases obstacle d path_data trajectory j st)
    as (ext_l & ext_u & Hext & Hl & Hu & Hrest).
  cbv zeta in Hrest. unfold builder_shape. rewrite Hl, Hu.
  split.
  { rewrite !length_app, Hlen.
    destruct Hext as [[-> ->] | (sl & su & -> & ->)]; reflexivity. }
  destruct Hrest as [(_ & Hbp' & Hout' & _) | (_ & Hbp' & Hcase)].
  - rewrite Hbp', Hout'. split; [exact Hbp |]. now exists added.
  - rewrite Hbp'. split.
    { right. now rewrite apply_decision_length. }
    destruct Hcase as [(_ & Hout' & _) | (_ & Hout' & _)]; rewrite Hout'.
    + eexists. rewrite Hout, <- app_assoc. split; [reflexivity |].
      apply Forall_app. split; [exact Hall |].
      constructor; [| constructor]. simpl.
      split; [now rewrite apply_decision_length | reflexivity].
    + now exists added.
Qed.

(** X7. In every state that the loops of the dynamic builder reach, the
    lower and the upper envelope have the same number of points (so
    [upper_points] is never read while empty), the polygon under
    construction is empty or a quadrilateral, and the vector is the one
    passed in followed by four-vertex boundaries whose characteristic length
    was never set. *)
Theorem dynamic_builder_shape (n : nat) (obstacle : Obstacle)
    (d : ObjectDecisionType) (path_data : list PathPoint)
    (boundary : list StGraphBoundary) :
  builder_shape boundary
    (snd (loop_run get_area check_overlap Double_compare env n obstacle d
                   path_data (builder_start boundary))).
Proof.
  assert (Hstep : forall c,
             builder_shape boundary (snd c) ->
             builder_shape boundary
               (snd (loop_step get_area check_overlap Double_compare env obstacle
                               d path_data c))).
  { intros [pc st] H. destruct pc as [i | trajectory i j |]; simpl in *.
    - destruct (i <? _)%Z; exact H.
    - destruct (j <? num_of_points trajectory)%Z; simpl;
        [now apply sample_body_shape | exact H].
    - exact H. }
  assert (Hrun : forall m c,
             builder_shape boundary (snd c) ->
             builder_shape boundary
               (snd (loop_run get_area check_overlap Double_compare env m obstacle
                              d path_data c))).
  { induction m as [| m IH]; intros c H; simpl; [exact H |].
    apply IH. now apply Hstep. }
  apply Hrun. unfold builder_start, builder_shape. simpl.
  split; [reflexivity |]. split; [now left |].
  exists []. now rewrite app_nil_r.
Qed.

Lemma sample_body_flat (obstacle : Obstacle) (d : ObjectDecisionType)
    (path_data : list PathPoint) (trajectory : PredictionTrajectory)
    (boundary : list StGraphBoundary) (i : Z) (st : BuilderState) :
  has_follow d = false ->
  (0 < num_of_points trajectory)%Z ->
  flat_inv env boundary (InnerTest trajectory i 0, st) ->
  flat_inv env boundary
    (InnerTest trajectory (uint32_incr i) 0,
     sample_body get_area check_overlap Double_compare env obstacle d path_data
                 trajectory 0 st).
Proof.
  intros Hd Hpts. unfold flat_inv. cbn [fst snd].
  intros (Hout & Hskip & Hlen & _ & Hlow & Hup & _).
  destruct (sample_body_cases obstacle d path_data trajectory 0 st)
    as (ext_l & ext_u & Hext & Hl & Hu & Hrest).
  cbv zeta in Hrest.
  set (t := sample_time env trajectory 0) in *.
  assert (Hlow' : Forall (fun p => st_t p = t) (lower_points st ++ ext_l)).
  { apply Forall_app. split; [exact Hlow |].
    destruct Hext as [[-> _] | (sl & su & -> & _)]; repeat constructor. }
  assert (Hup' : Forall (fun p => st_t p = t) (upper_points st ++ ext_u)).
  { apply Forall_app. split; [exact Hup |].
    destruct Hext as [[_ ->] | (sl & su & _ & ->)]; repeat constructor. }
  assert (Hlen' : List.length (lower_points st ++ ext_l)
                  = List.length (upper_points st ++ ext_u)).
  { rewrite !length_app, Hlen.
    destruct Hext as [[-> ->] | (sl & su & -> & ->)]; reflexivity. }
  rewrite Hl, Hu.
  assert (Hgoal : forall out sk,
             out = boundary -> sk = true ->
             out = boundary /\ sk = true
             /\ List.length (lower_points st ++ ext_l)
                = List.length (upper_points st ++ ext_u)
             /\ 0%Z = 0%Z
             /\ Forall (fun p => st_t p = t) (lower_points st ++ ext_l)
             /\ Forall (fun p => st_t p = t) (upper_points st ++ ext_u)
             /\ (num_of_points trajectory = 0%Z -> lower_points st ++ ext_l = [])).
  { intros out sk Ho Hs. repeat split; try assumption. intro H0. lia. }
  destruct Hrest as [(_ & _ & Hout' & Hskip') | (Hne & _ & Hcase)].
  - apply Hgoal; congruence.
  - destruct Hcase as [(Harea & _ & _) | (_ & Hout' & Hskip')];
      [| apply Hgoal; congruence].
    exfalso. apply Double_compare_pos in Harea.
    rewrite ?Hl, ?Hu in Harea. rewrite ?Hl in Hne.
    assert (Hune : upper_points st ++ ext_u <> []).
    { intro Hnil. rewrite Hnil in Hlen'. simpl in Hlen'.
      destruct (lower_points st ++ ext_l); [congruence | discriminate]. }
    assert (Hflat :
              Forall (fun p => st_t p = t)
                (fst (apply_decision d (follow_distance_of env obstacle d)
                        (envelope_polygon env (lower_points st ++ ext_l)
                           (upper_points st ++ ext_u))))).
    { apply Forall_map with (f := st_t) (P := fun x => x = t).
      rewrite apply_decision_times by exact Hd.
      unfold envelope_polygon. cbn [map st_t].
      pose proof (Forall_at_0 _ _ Hlow' Hne) as A1.
      pose proof (Forall_back _ _ Hlow' Hne) as A2.
      pose proof (Forall_back _ _ Hup' Hune) as A3.
      pose proof (Forall_at_0 _ _ Hup' Hune) as A4.
      simpl in A1, A2, A3, A4.
      repeat constructor; assumption. }
    apply get_area_flat in Hflat.
    apply (Qlt_irrefl 0). eapply Qlt_le_trans; eassumption.
Qed.

Lemma loop_step_flat (obstacle : Obstacle) (d : ObjectDecisionType)
    (path_data : list PathPoint) (boundary : list StGraphBoundary)
    (c : LoopPoint * BuilderState) :
  has_follow d = false ->
  flat_inv env boundary c ->
  flat_inv env boundary
    (loop_step get_area check_overlap Double_compare env obstacle d path_data c).
Proof.
  intros Hd. destruct c as [pc st].
  destruct pc as [i | trajectory i j |]; simpl loop_step.
  - intro H. destruct (i <? _)%Z; [| exact H].
    unfold flat_inv in *. cbn [fst snd] in *.
    destruct H as (Hout & Hskip & Hlen & Hnil).
    repeat split; try assumption; try (rewrite Hnil; constructor).
    + rewrite Hnil in Hlen. simpl in Hlen.
      destruct (upper_points st); [constructor | discriminate].
  - intro H. pose proof H as H'. unfold flat_inv in H'. cbn [fst snd] in H'.
    destruct H' as (Hout & Hskip & Hlen & Hj & Hlow & Hup & Hzero). subst j.
    destruct (0 <? num_of_points trajectory)%Z eqn:E.
    + apply Z.ltb_lt in E. now apply sample_body_flat.
    + apply Z.ltb_ge in E. unfold flat_inv. cbn [fst snd].
      repeat split; try assumption. apply Hzero.
      unfold num_of_points in *. lia.
  - exact (fun H => H).
Qed.

(** X8. For a decision other than Follow, and an area helper that gives no
    positive area to a polygon whose vertices all lie at one time, the loops
    of the dynamic builder never append a boundary: every polygon they build
    is made of copies of sample 0 of one trajectory, so all its vertices lie
    at one time.  The vector stays as passed in and [skip] stays set. *)
Theorem dynamic_builder_appends_nothing (n : nat) (obstacle : Obstacle)
    (d : ObjectDecisionType) (path_data : list PathPoint)
    (boundary : list StGraphBoundary) :
  has_follow d = false ->
  let st := snd (loop_run get_area check_overlap Double_compare env n obstacle d
                          path_data (builder_start boundary)) in
  boundary_out st = boundary /\ skip st = true.
Proof.
  intros Hd st.
  assert (Hrun : forall m c,
             flat_inv env boundary c ->
             flat_inv env boundary
               (loop_run get_area check_overlap Double_compare env m obstacle d
                         path_data c)).
  { induction m as [| m IH]; intros c H; simpl; [exact H |].
    apply IH. now apply loop_step_flat. }
  assert (Hstart : flat_inv env boundary (builder_start boundary)).
  { unfold flat_inv, builder_start. simpl. repeat split; reflexivity. }
  destruct (Hrun n _ Hstart) as (Hout & Hskip & _).
  split; assumption.
Qed.



(** *** When the dynamic builder returns *)

Lemma loop_run_add (a b : nat) (obstacle : Obstacle) (d : ObjectDecisionType)
    (path_data : list PathPoint) (c : LoopPoint * BuilderState) :
  loop_run get_area check_overlap Double_compare env (a + b) obstacle d path_data c
  = loop_run get_area check_overlap Double_compare env b obstacle d path_data
      (loop_run get_area check_overlap Double_compare env a obstacle d path_data c).
Proof.
  revert c. induction a as [| a IH]; intro c; [reflexivity |].
  simpl. apply IH.
Qed.

Lemma loop_run_done (n : nat) (obstacle : Obstacle) (d : ObjectDecisionType)
    (path_data : list PathPoint) (st : BuilderState) :
  loop_run get_area check_overlap Double_compare env n obstacle d path_data
           (LoopsDone, st)
  = (LoopsDone, st).
Proof.
  induction n as [| n IH]; [reflexivity | exact IH].
Qed.

Lemma inner_loop_stays (obstacle : Obstacle) (d : ObjectDecisionType)
    (path_data : list PathPoint) (trajectory : PredictionTrajectory) (n : nat) :
  (0 < num_of_points trajectory)%Z ->
  forall (i : Z) (st : BuilderState),
  exists i' st',
    loop_run get_area check_overlap Double_compare env n obstacle d path_data
             (InnerTest trajectory i 0, st)
    = (InnerTest trajectory i' 0, st').
Proof.
  intro Hpts. induction n as [| n IH]; intros i st.
  - now exists i, st.
  - simpl. apply Z.ltb_lt in Hpts. rewrite Hpts. apply IH.
Qed.

(** The outer loop passes over trajectories without samples in two steps
    each, as long as the counter does not wrap. *)
Lemma outer_loop_passes_empty (obstacle : Obstacle) (d : ObjectDecisionType)
    (path_data : list PathPoint) (st : BuilderState)
    (pre : list PredictionTrajectory) :
  forall done rest : list PredictionTrajectory,
    prediction_trajectories obstacle = done ++ pre ++ rest ->
    Forall (fun t => trajectory_points t = []) pre ->
    (Z.of_nat (List.length done + List.length pre) < 2 ^ 32)%Z ->
    loop_run get_area check_overlap Double_compare env (2 * List.length pre)
             obstacle d path_data (OuterTest (Z.of_nat (List.length done)), st)
    = (OuterTest (Z.of_nat (List.length done + List.length pre)), st).
Proof.
  induction pre as [| x pre IH]; intros done rest Htrajs Hempty Hsmall.
  - simpl. now rewrite Nat.add_0_r.
  - inversion Hempty as [| ? ? Hx Hpre]; subst.
    replace (2 * List.length (x :: pre))%nat
      with (S (S (2 * List.length pre))) by (simpl; lia).
    cbn [loop_run]. cbn [loop_step]. rewrite Htrajs.
    replace (Z.of_nat (List.length done)
             <? Z.of_nat (List.length (done ++ (x :: pre) ++ rest)))%Z
      with true
      by (symmetry; apply Z.ltb_lt; rewrite !length_app; simpl; lia).
    rewrite Nat2Z.id. cbn [app]. rewrite nth_middle.
    cbn [loop_step]. unfold num_of_points at 1. rewrite Hx. cbn [List.length].
    replace (0 <? Z.of_nat 0)%Z with false by reflexivity.
    replace (uint32_incr (Z.of_nat (List.length done)))
      with (Z.of_nat (List.length (done ++ [x]))).
    2:{ unfold uint32_incr. rewrite length_app. simpl List.length.
        rewrite Z.mod_small; [lia |]. simpl List.length in Hsmall. lia. }
    rewrite (IH (done ++ [x]) rest).
    + rewrite length_app. simpl List.length. f_equal. f_equal. lia.
    + rewrite Htrajs, <- app_assoc. reflexivity.
    + exact Hpre.
    + rewrite length_app. simpl List.length in *. lia.
Qed.

Lemma first_trajectory_with_sample (l : list PredictionTrajectory) :
  Forall (fun t => trajectory_points t = []) l
  \/ exists pre t rest,
       l = pre ++ t :: rest
       /\ Forall (fun t => trajectory_points t = []) pre
       /\ (0 < num_of_points t)%Z.
Proof.
  induction l as [| x l IH]; [left; constructor |].
  destruct (trajectory_points x) as [| p ps] eqn:Hx.
  - destruct IH as [Hall | (pre & t & rest & Hl & Hpre & Ht)].
    + left. now constructor.
    + right. exists (x :: pre), t, rest. subst l.
      repeat split; [now constructor | exact Ht].
  - right. exists [], x, l. repeat split; [constructor |].
    unfold num_of_points. rewrite Hx. simpl List.length. lia.
Qed.

(** The loops get to the first trajectory that has a sample. *)
Lemma loop_reaches_sample (obstacle : Obstacle) (d : ObjectDecisionType)
    (path_data : list PathPoint) (boundary : list StGraphBoundary)
    (pre : list PredictionTrajectory) (t : PredictionTrajectory)
    (rest : list PredictionTrajectory) :
  prediction_trajectories obstacle = pre ++ t :: rest ->
  Forall (fun t => trajectory_points t = []) pre ->
  (Z.of_nat (List.length pre) < 2 ^ 32)%Z ->
  loop_run get_area check_overlap Double_compare env (2 * List.length pre + 1)
           obstacle d path_data (builder_start boundary)
  = (InnerTest t (Z.of_nat (List.length pre)) 0,
     mkBuilderState [] [] [] boundary true).
Proof.
  intros Hl Hpre Hsmall. rewrite loop_run_add. unfold builder_start.
  rewrite (outer_loop_passes_empty obstacle d path_data _ pre [] (t :: rest));
    [| exact Hl | exact Hpre | simpl; lia].
  cbn [loop_run]. cbn [loop_step]. rewrite Hl.
  replace (Z.of_nat (List.length [] + List.length pre)
           <? Z.of_nat (List.length (pre ++ t :: rest)))%Z
    with true
    by (symmetry; apply Z.ltb_lt; rewrite length_app; simpl; lia).
  cbn [List.length Nat.add]. rewrite Nat2Z.id, nth_middle. reflexivity.
Qed.

(** X9. For an obstacle with fewer than 2^32 predicted trajectories, the
    dynamic builder returns (within some number of steps) exactly when none
    of the trajectories has a sample; a single sample anywhere keeps the
    loops from ever being left. *)
Theorem dynamic_builder_returns_iff_no_sample (obstacle : Obstacle)
    (d : ObjectDecisionType) (path_data : list PathPoint)
    (planning_distance planning_time : Q) (boundary : list StGraphBoundary) :
  (Z.of_nat (List.length (prediction_trajectories obstacle)) < 2 ^ 32)%Z ->
  (exists budget,
      map_obstacle_with_prediction_trajectory get_area check_overlap
        Double_compare env budget obstacle d path_data planning_distance
        planning_time boundary
      <> None)
  <-> Forall (fun t => trajectory_points t = [])
             (prediction_trajectories obstacle).
Proof.
  intro Hsmall. unfold map_obstacle_with_prediction_trajectory. split.
  - intros [budget Hret].
    destruct (first_trajectory_with_sample (prediction_trajectories obstacle))
      as [Hall | (pre & t & rest & Hl & Hpre & Ht)]; [exact Hall |].
    exfalso. apply Hret. clear Hret.
    destruct (loop_run get_area check_overlap Double_compare env budget obstacle
                d path_data (builder_start boundary)) as [pc st] eqn:Hrun.
    destruct pc; try reflexivity. exfalso.
    assert (Hlate :
              loop_run get_area check_overlap Double_compare env
                (budget + (2 * List.length pre + 1)) obstacle d path_data
                (builder_start boundary)
              = (LoopsDone, st)).
    { rewrite loop_run_add, Hrun. apply loop_run_done. }
    replace (budget + (2 * List.length pre + 1))%nat
      with ((2 * List.length pre + 1) + budget)%nat in Hlate by lia.
    rewrite loop_run_add in Hlate.
    rewrite (loop_reaches_sample obstacle d path_data boundary pre t rest)
      in Hlate; [| exact Hl | exact Hpre |].
    2:{ rewrite Hl, length_app in Hsmall. simpl List.length in *. lia. }
    destruct (inner_loop_stays obstacle d path_data t budget Ht
                (Z.of_nat (List.length pre))
                (mkBuilderState [] [] [] boundary true)) as (i' & st' & Hin).
    rewrite Hin in Hlate. discriminate.
  - intro Hall.
    exists (2 * List.length (prediction_trajectories obstacle) + 1)%nat.
    rewrite loop_run_add. unfold builder_start.
    rewrite (outer_loop_passes_empty obstacle d path_data _
               (prediction_trajectories obstacle) [] []);
      [| now rewrite app_nil_r | exact Hall | simpl; lia].
    cbn [loop_run]. cbn [loop_step]. cbn [List.length Nat.add].
    rewrite Z.ltb_irrefl. discriminate.
Qed.

(** X10. The dynamic builder never returns OK: within any budget it either
    has not returned, or it returns PLANNING_SKIP with the message
    PLANNING_SKIP and the vector exactly as it was passed in. *)
Theorem dynamic_builder_never_ok (budget : nat) (obstacle : Obstacle)
    (d : ObjectDecisionType) (path_data : list PathPoint)
    (planning_distance planning_time : Q) (boundary : list StGraphBoundary) :
  let r := map_obstacle_with_prediction_trajectory get_area check_overlap
             Double_compare env budget obstacle d path_data planning_distance
             planning_time boundary in
  r = None \/ r = Some (mkStatus PLANNING_SKIP "PLANNING_SKIP", boundary).
Proof.
  intro r. destruct r as [[ret out] |] eqn:Hr; [right | now left].
  subst r. apply dynamic_builder_returns_only_skip in Hr.
  destruct Hr as [-> ->]. reflexivity.
Qed.


(** *** Lines 77-138 of the orchestrator *)

Lemma map_static_obstacles_continue (static_obs_vec : list (option Obstacle))
    (path_data : list PathPoint) (planning_distance planning_time : Q)
    (obs_boundary : list StGraphBoundary) :
  map_static_obstacles static_obs_vec path_data planning_distance planning_time
                       obs_boundary
  = Continue obs_boundary.
Proof.
  induction static_obs_vec as [| o rest IH]; [reflexivity |].
  destruct o; simpl; exact IH.
Qed.

Lemma map_decisions_result (budget : nat) (obs : Obstacle)
    (decisions : list ObjectDecisionType) (path_data : list PathPoint)
    (planning_distance planning_time : Q) (obs_boundary : list StGraphBoundary) :
  let r := map_decisions get_area check_overlap Double_compare env budget obs
             decisions path_data planning_distance planning_time obs_boundary in
  r = None \/ r = Some (Continue obs_boundary)
  \/ r = Some (Return Status_OK obs_boundary).
Proof.
  induction decisions as [| d rest IH]; simpl; [right; now left |].
  destruct (has_follow d); [exact IH |].
  destruct (has_overtake d || has_yield d); [| exact IH].
  destruct (map_obstacle_with_prediction_trajectory get_area check_overlap
              Double_compare env budget obs d path_data planning_distance
              planning_time obs_boundary) as [[ret out] |] eqn:Hb; [| now left].
  apply dynamic_builder_returns_only_skip in Hb. destruct Hb as [-> ->].
  right; right. reflexivity.
Qed.

Lemma map_dynamic_obstacles_result (budget : nat)
    (dynamic_obs_vec : list (option Obstacle)) (path_data : list PathPoint)
    (planning_distance planning_time : Q) (obs_boundary : list StGraphBoundary) :
  let r := map_dynamic_obstacles get_area check_overlap Double_compare env budget
             dynamic_obs_vec path_data planning_distance planning_time
             obs_boundary in
  r = None \/ r = Some (Continue obs_boundary)
  \/ r = Some (Return Status_OK obs_boundary).
Proof.
  induction dynamic_obs_vec as [| o rest IH]; simpl; [right; now left |].
  destruct o as [obs |]; [| exact IH].
  destruct (map_decisions_result budget obs (Decisions obs) path_data
              planning_distance planning_time obs_boundary)
    as [H | [H | H]]; cbv zeta in H; rewrite H.
  - now left.
  - exact IH.
  - right; right. reflexivity.
Qed.

(** The main decision on the cleared vector: nothing appended, one [STOP]
    boundary appended, or the error return of lines 86 and 92. *)
Lemma map_main_decision_cases (decision_data : DecisionData)
    (reference_line : ReferenceLine) (planning_distance planning_time : Q) :
  let f := map_main_decision get_area Double_compare env decision_data
             reference_line planning_distance planning_time [] in
  f = Continue []
  \/ (exists b, f = Continue [b] /\ boundary_type b = STOP
                /\ (0 < Double_compare (get_area (points b)) 0)%Z)
  \/ f = Return (Status_of PLANNING_ERROR) [].
Proof.
  unfold map_main_decision. destruct (main_decision decision_data) as [stop | |].
  - destruct (stop_builder_cases get_area Double_compare env stop reference_line
                planning_distance planning_time [])
      as [H | [H | (pts & Harea & H)]]; cbv zeta in H; rewrite H.
    + right; right. reflexivity.
    + left. reflexivity.
    + right; left. eexists. split; [reflexivity |]. split; [reflexivity |].
      exact Harea.
  - destruct (mission_builder_cases get_area Double_compare env reference_line
                planning_distance planning_time [])
      as [H | (b & H & Htag & Harea)]; cbv zeta in H; rewrite H.
    + left. reflexivity.
    + right; left. exists b. now repeat split.
  - left. reflexivity.
Qed.

(** X11. Whenever lines 77-138 return, they return OK with at most one
    boundary in the vector, tagged [STOP] and of positive area (the one of
    the main decision), or the error of the main decision with an empty
    vector: no dynamic obstacle ever contributes a boundary. *)
Theorem body_output_at_most_one (budget : nat) (decision_data : DecisionData)
    (path_data : list PathPoint) (reference_line : ReferenceLine)
    (planning_distance planning_time : Q) (pointee : list StGraphBoundary)
    (ret : Status) (out : list StGraphBoundary) :
  get_graph_boundary_body get_area check_overlap Double_compare env budget
    decision_data path_data reference_line planning_distance planning_time
    pointee
  = Some (ret, out) ->
  (ret = Status_OK
   /\ (out = []
       \/ exists b, out = [b] /\ boundary_type b = STOP
                    /\ 0 < get_area (points b)))
  \/ (ret = Status_of PLANNING_ERROR /\ out = []).
Proof.
  unfold get_graph_boundary_body.
  assert (Hdyn : forall b,
             map_dynamic_obstacles get_area check_overlap Double_compare env
               budget (DynamicObstacles decision_data) path_data
               planning_distance planning_time b
             = None
             \/ exists fl,
                 map_dynamic_obstacles get_area check_overlap Double_compare env
                   budget (DynamicObstacles decision_data) path_data
                   planning_distance planning_time b
                 = Some fl
                 /\ (fl = Continue b \/ fl = Return Status_OK b)).
  { intro b.
    destruct (map_dynamic_obstacles_result budget
                (DynamicObstacles decision_data) path_data planning_distance
                planning_time b) as [H | [H | H]]; cbv zeta in H;
      [now left | right | right]; eexists; (split; [exact H |]); auto. }
  destruct (map_main_decision_cases decision_data reference_line
              planning_distance planning_time)
    as [H | [(b & H & Htag & Harea) | H]]; cbv zeta in H; rewrite H;
    rewrite ?map_static_obstacles_continue.
  - destruct (Hdyn []) as [Hn | (fl & Hs & [-> | ->])];
      rewrite ?Hn, ?Hs; intro E; inversion E; left; split; auto.
  - destruct (Hdyn [b]) as [Hn | (fl & Hs & [-> | ->])];
      rewrite ?Hn, ?Hs; intro E; inversion E; left; (split; [reflexivity |]);
      right; exists b; repeat split; auto.
  - intro E. inversion E. right. now split.
Qed.

(** X12. When the main decision is Stop and the stop point cannot be
    projected on the reference line, lines 77-138 return PLANNING_ERROR
    with an empty vector, within any budget and whatever the obstacles
    are. *)
Theorem body_fails_on_projection (budget : nat) (decision_data : DecisionData)
    (path_data : list PathPoint) (reference_line : ReferenceLine)
    (planning_distance planning_time : Q) (pointee : list StGraphBoundary)
    (stop : MainStop) :
  let map_point := get_smooth_point env (lane_id stop) (line_distance_s stop) in
  main_decision decision_data = MainDecisionStop stop ->
  get_point_in_Frenet_frame reference_line (mkVec2d (vx map_point) (vy map_point))
    = None ->
  get_graph_boundary_body get_area check_overlap Double_compare env budget
    decision_data path_data reference_line planning_distance planning_time
    pointee
  = Some (Status_of PLANNING_ERROR, []).
Proof.
  intros map_point Hmain Hproj. subst map_point.
  unfold get_graph_boundary_body, map_main_decision, map_main_decision_stop.
  rewrite Hmain, Hproj. reflexivity.
Qed.

Lemma map_decisions_quiet (budget : nat) (obs : Obstacle)
    (decisions : list ObjectDecisionType) (path_data : list PathPoint)
    (planning_distance planning_time : Q) (obs_boundary : list StGraphBoundary) :
  forallb quiet_decision decisions = true ->
  map_decisions get_area check_overlap Double_compare env budget obs decisions
    path_data planning_distance planning_time obs_boundary
  = Some (Continue obs_boundary).
Proof.
  induction decisions as [| d rest IH]; intro H; [reflexivity |].
  simpl in H. apply andb_true_iff in H. destruct H as [Hd Hrest].
  unfold quiet_decision in Hd. apply negb_true_iff in Hd.
  simpl. rewrite Hd. destruct (has_follow d); now apply IH.
Qed.

Lemma map_dynamic_obstacles_quiet (budget : nat)
    (dynamic_obs_vec : list (option Obstacle)) (path_data : list PathPoint)
    (planning_distance planning_time : Q) (obs_boundary : list StGraphBoundary) :
  no_prediction_decisions dynamic_obs_vec = true ->
  map_dynamic_obstacles get_area check_overlap Double_compare env budget
    dynamic_obs_vec path_data planning_distance planning_time obs_boundary
  = Some (Continue obs_boundary).
Proof.
  induction dynamic_obs_vec as [| o rest IH]; intro H; [reflexivity |].
  unfold no_prediction_decisions in H. simpl in H.
  apply andb_true_iff in H. destruct H as [Ho Hrest].
  destruct o as [obs |]; simpl.
  - rewrite map_decisions_quiet by exact Ho. now apply IH.
  - now apply IH.
Qed.

(** X13. When no dynamic obstacle carries a Yield or an Overtake decision,
    lines 77-138 return within any budget, even none, and the result is
    that of the main decision alone: static obstacles, null entries, Follow
    decisions and other decisions change neither the vector nor the
    status. *)
Theorem body_of_quiet_scene (budget : nat) (decision_data : DecisionData)
    (path_data : list PathPoint) (reference_line : ReferenceLine)
    (planning_distance planning_time : Q) (pointee : list StGraphBoundary) :
  no_prediction_decisions (DynamicObstacles decision_data) = true ->
  get_graph_boundary_body get_area check_overlap Double_compare env budget
    decision_data path_data reference_line planning_distance planning_time
    pointee
  = Some (match map_main_decision get_area Double_compare env decision_data
                  reference_line planning_distance planning_time [] with
          | Return ret out => (ret, out)
          | Continue out => (Status_OK, out)
          end).
Proof.
  intro Hquiet. unfold get_graph_boundary_body.
  destruct (map_main_decision get_area Double_compare env decision_data
              reference_line planning_distance planning_time [])
    as [out | ret out]; [| reflexivity].
  rewrite map_static_obstacles_continue.
  now rewrite map_dynamic_obstacles_quiet.
Qed.

Lemma map_dynamic_obstacles_drop_null (budget : nat)
    (dynamic_obs_vec : list (option Obstacle)) (path_data : list PathPoint)
    (planning_distance planning_time : Q) (obs_boundary : list StGraphBoundary) :
  map_dynamic_obstacles get_area check_overlap Double_compare env budget
    (filter non_null dynamic_obs_vec) path_data planning_distance planning_time
    obs_boundary
  = map_dynamic_obstacles get_area check_overlap Double_compare env budget
      dynamic_obs_vec path_data planning_distance planning_time obs_boundary.
Proof.
  revert obs_boundary.
  induction dynamic_obs_vec as [| o rest IH]; intro b; [reflexivity |].
  destruct o as [obs |]; simpl; [| apply IH].
  destruct (map_decisions get_area check_overlap Double_compare env budget obs
              (Decisions obs) path_data planning_distance planning_time b)
    as [[b' | ret b'] |]; try reflexivity. apply IH.
Qed.

(** X14. Null entries of the two obstacle vectors are passed over: lines
    77-138 give the same result on a scene and on the scene with its null
    entries taken out. *)
Theorem body_ignores_null_obstacles (budget : nat) (main : MainDecision)
    (static_obs_vec dynamic_obs_vec : list (option Obstacle))
    (path_data : list PathPoint) (reference_line : ReferenceLine)
    (planning_distance planning_time : Q) (pointee : list StGraphBoundary) :
  get_graph_boundary_body get_area check_overlap Double_compare env budget
    (mkDecisionData main (filter non_null static_obs_vec)
                    (filter non_null dynamic_obs_vec))
    path_data reference_line planning_distance planning_time pointee
  = get_graph_boundary_body get_area check_overlap Double_compare env budget
      (mkDecisionData main static_obs_vec dynamic_obs_vec)
      path_data reference_line planning_distance planning_time pointee.
Proof.
  unfold get_graph_boundary_body, map_main_decision.
  cbn [main_decision StaticObstacles DynamicObstacles].
  destruct main as [stop | |];
    repeat match goal with
           | |- context [let '(a, b) := ?e in _] => destruct e
           | |- context [if ?c then _ else _] => destruct c
           end;
    try reflexivity;
    rewrite !map_static_obstacles_continue, map_dynamic_obstacles_drop_null;
    reflexivity.
Qed.

Lemma map_decisions_app (budget : nat) (obs : Obstacle)
    (l1 l2 : list ObjectDecisionType) (path_data : list PathPoint)
    (planning_distance planning_time : Q) (obs_boundary : list StGraphBoundary) :
  map_decisions get_area check_overlap Double_compare env budget obs (l1 ++ l2)
    path_data planning_distance planning_time obs_boundary
  = match map_decisions get_area check_overlap Double_compare env budget obs l1
            path_data planning_distance planning_time obs_boundary with
    | Some (Continue b) =>
      map_decisions get_area check_overlap Double_compare env budget obs l2
        path_data planning_distance planning_time b
    | r => r
    end.
Proof.
  revert obs_boundary. induction l1 as [| d rest IH]; intro b; [reflexivity |].
  simpl. destruct (has_follow d); [apply IH |].
  destruct (has_overtake d || has_yield d); [| apply IH].
  destruct (map_obstacle_with_prediction_trajectory get_area check_overlap
              Double_compare env budget obs d path_data planning_distance
              planning_time b) as [[ret out] |]; [| reflexivity].
  destruct (negb (ok ret)); [reflexivity | apply IH].
Qed.

Lemma map_dynamic_obstacles_app (budget : nat)
    (l1 l2 : list (option Obstacle)) (path_data : list PathPoint)
    (planning_distance planning_time : Q) (obs_boundary : list StGraphBoundary) :
  map_dynamic_obstacles get_area check_overlap Double_compare env budget
    (l1 ++ l2) path_data planning_distance planning_time obs_boundary
  = match map_dynamic_obstacles get_area check_overlap Double_compare env budget
            l1 path_data planning_distance planning_time obs_boundary with
    | Some (Continue b) =>
      map_dynamic_obstacles get_area check_overlap Double_compare env budget l2
        path_data planning_distance planning_time b
    | r => r
    end.
Proof.
  revert obs_boundary. induction l1 as [| o rest IH]; intro b; [reflexivity |].
  destruct o as [obs |]; simpl; [| apply IH].
  destruct (map_decisions get_area check_overlap Double_compare env budget obs
              (Decisions obs) path_data planning_distance planning_time b)
    as [[b' | ret b'] |]; try reflexivity. apply IH.
Qed.

(** X15. The first Yield or Overtake decision met decides how lines 77-138
    end.  When the main decision does not fail, and the obstacles and
    decisions before that decision are null, Follow or other, the result is
    fixed by the dynamic builder on that decision: if the builder returns,
    the lines return OK with the vector of the main decision, and nothing
    after that decision is processed; if it does not return, neither do
    they. *)
Theorem first_prediction_decision_decides (budget : nat)
    (decision_data : DecisionData) (path_data : list PathPoint)
    (reference_line : ReferenceLine) (planning_distance planning_time : Q)
    (pointee out : list StGraphBoundary)
    (before after : list (option Obstacle)) (obs : Obstacle)
    (earlier later : list ObjectDecisionType) (d : ObjectDecisionType) :
  map_main_decision get_area Double_compare env decision_data reference_line
    planning_distance planning_time []
  = Continue out ->
  DynamicObstacles decision_data = before ++ Some obs :: after ->
  no_prediction_decisions before = true ->
  Decisions obs = earlier ++ d :: later ->
  forallb quiet_decision earlier = true ->
  quiet_decision d = false ->
  get_graph_boundary_body get_area check_overlap Double_compare env budget
    decision_data path_data reference_line planning_distance planning_time
    pointee
  = match map_obstacle_with_prediction_trajectory get_area check_overlap
            Double_compare env budget obs d path_data planning_distance
            planning_time out with
    | None => None
    | Some _ => Some (Status_OK, out)
    end.
Proof.
  intros Hmain Hdyn Hbefore Hdec Hearlier Hd.
  unfold get_graph_boundary_body. rewrite Hmain, map_static_obstacles_continue.
  rewrite Hdyn, map_dynamic_obstacles_app.
  rewrite map_dynamic_obstacles_quiet by exact Hbefore.
  cbn [map_dynamic_obstacles]. rewrite Hdec, map_decisions_app.
  rewrite map_decisions_quiet by exact Hearlier.
  cbn [map_decisions].
  unfold quiet_decision in Hd. apply negb_false_iff in Hd. rewrite Hd.
  assert (Hf : has_follow d = false) by (destruct d; simpl in *; congruence).
  rewrite Hf.
  destruct (map_obstacle_with_prediction_trajectory get_area check_overlap
              Double_compare env budget obs d path_data planning_distance
              planning_time out) as [[ret b] |] eqn:Hb; [| reflexivity].
  apply dynamic_builder_returns_only_skip in Hb. destruct Hb as [-> ->].
  reflexivity.
Qed.


(** *** The static builders *)

Lemma fmin_Qmin (x y : Q) : fmin x y = Qmin x y.
Proof.
  unfold fmin, Qmin, GenericMinMax.gmin.
  destruct (Qlt_le_dec y x) as [Hlt | Hle]; destruct (Qcompare x y) eqn:E;
    try reflexivity.
  - apply Qgt_alt in Hlt. unfold Qcompare in *. congruence.
  - apply Qgt_alt in Hlt. unfold Qcompare in *. congruence.
  - apply Qle_alt in Hle. unfold Qcompare in *. congruence.
Qed.

(** X16. A boundary appended by the stop builder starts at a station that
    is not negative and not before [stop_rear_center_s]'s clamp, and its
    far edge lies at least 1 beyond the near edge, at least at the planning
    distance and at least at the end of the reference line; the near edge
    is vertical from time 0 to the planning time. *)
Theorem stop_boundary_geometry (main_stop : MainStop)
    (reference_line : ReferenceLine) (planning_distance planning_time : Q)
    (boundary : list StGraphBoundary) :
  let r := map_main_decision_stop get_area Double_compare env main_stop
             reference_line planning_distance planning_time boundary in
  code (fst r) = OK ->
  exists s_min s_max : Q,
    snd r
    = boundary ++
        [mkStGraphBoundary
           [ mkSTPoint s_min 0; mkSTPoint s_min planning_time;
             mkSTPoint (s_max + boundary_buffer (st_boundary_config env))
                       planning_time;
             mkSTPoint s_max 0 ]
           STOP (Some (boundary_buffer (st_boundary_config env)))]
    /\ 0 <= s_min
    /\ s_min + 1 <= s_max
    /\ planning_distance <= s_max
    /\ length_of reference_line <= s_max.
Proof.
  intros r Hok. subst r. unfold map_main_decision_stop in *.
  destruct (get_point_in_Frenet_frame _ _) as [sl |]; [| discriminate Hok].
  cbv zeta in *.
  set (srcs := stop_rear_center_s_of env sl) in *.
  destruct (if (Double_compare srcs 0 <? 0)%Z then false else Qgeb _ _);
    [discriminate Hok |].
  destruct (Double_compare (get_area _) 0 <=? 0)%Z; [discriminate Hok |].
  rewrite emplace_stop_boundary. cbn [snd].
  eexists. eexists. split; [reflexivity |].
  rewrite !fmax_Qmax.
  assert (Hmin : 0 <= (if Qltb 0 srcs then srcs else 0)).
  { destruct (Qltb 0 srcs) eqn:E; [| apply Qle_refl].
    apply Qltb_true in E. now apply Qlt_le_weak. }
  split; [exact Hmin |]. split; [apply Q.le_max_l |]. split.
  - eapply Qle_trans; [apply Q.le_max_l | apply Q.le_max_r].
  - eapply Qle_trans; [apply Q.le_max_r | apply Q.le_max_r].
Qed.

(** X20. A stop line behind the vehicle is not skipped for lying beyond
    the horizon.  When the projection succeeds and [stop_rear_center_s] is
    negative, the stop builder makes no horizon test: it builds the
    quadrilateral from station 0, with s_max = max(1, planning_distance,
    reference_line.length), and appends it unless the area test skips it. *)
Theorem stop_behind_vehicle_blocks_from_zero (main_stop : MainStop)
    (reference_line : ReferenceLine) (planning_distance planning_time : Q)
    (boundary : list StGraphBoundary) (sl_point : SLPoint) :
  let map_point :=
    get_smooth_point env (lane_id main_stop) (line_distance_s main_stop) in
  let r := map_main_decision_stop get_area Double_compare env main_stop
             reference_line planning_distance planning_time boundary in
  let s_max :=
    Qmax (0 + 1) (Qmax planning_distance (length_of reference_line)) in
  let quad :=
    [ mkSTPoint 0 0; mkSTPoint 0 planning_time;
      mkSTPoint (s_max + boundary_buffer (st_boundary_config env)) planning_time;
      mkSTPoint s_max 0 ] in
  get_point_in_Frenet_frame reference_line (mkVec2d (vx map_point) (vy map_point))
    = Some sl_point ->
  stop_rear_center_s_of env sl_point < 0 ->
  r = (Status_OK,
       boundary ++
         [mkStGraphBoundary quad STOP
            (Some (boundary_buffer (st_boundary_config env)))])
  \/ (r = (Status_of PLANNING_SKIP, boundary)
      /\ (Double_compare (get_area quad) 0 <= 0)%Z).
Proof.
  intros map_point r s_max quad Hproj Hneg. subst map_point r s_max quad.
  unfold map_main_decision_stop. rewrite Hproj. cbv zeta.
  pose proof (Double_compare_neg _ _ Hneg) as Hcmp.
  apply Z.ltb_lt in Hcmp. rewrite Hcmp.
  assert (Hmin : Qltb 0 (stop_rear_center_s_of env sl_point) = false).
  { apply Qltb_false. now apply Qlt_le_weak. }
  rewrite Hmin, !fmax_Qmax.
  destruct (Double_compare (get_area _) 0 <=? 0)%Z eqn:Harea.
  - right. split; [reflexivity |]. now apply Z.leb_le.
  - left. now rewrite emplace_stop_boundary.
Qed.

(** X17. The stop builder and the mission-complete builder make no partial
    output: each either returns OK, having appended exactly one boundary
    behind the untouched earlier ones, or returns another status with the
    vector exactly as it was. *)
Theorem static_builders_all_or_nothing (main_stop : MainStop)
    (reference_line : ReferenceLine) (planning_distance planning_time : Q)
    (boundary : list StGraphBoundary) :
  let r := map_main_decision_stop get_area Double_compare env main_stop
             reference_line planning_distance planning_time boundary in
  let m := map_mission_complete get_area Double_compare env reference_line
             planning_distance planning_time boundary in
  ((fst r = Status_OK /\ exists b, snd r = boundary ++ [b])
   \/ (code (fst r) <> OK /\ snd r = boundary))
  /\ ((fst m = Status_OK /\ exists b, snd m = boundary ++ [b])
      \/ (code (fst m) <> OK /\ snd m = boundary)).
Proof.
  intros r m. subst r m. split.
  - destruct (stop_builder_cases get_area Double_compare env main_stop
                reference_line planning_distance planning_time boundary)
      as [H | [H | (pts & _ & H)]]; cbv zeta in H; rewrite H; cbn [fst snd].
    + right. split; [discriminate | reflexivity].
    + right. split; [discriminate | reflexivity].
    + left. split; [reflexivity |]. eexists. reflexivity.
  - destruct (mission_builder_cases get_area Double_compare env reference_line
                planning_distance planning_time boundary)
      as [H | (b & H & _)]; cbv zeta in H; rewrite H; cbn [fst snd].
    + right. split; [discriminate | reflexivity].
    + left. split; [reflexivity |]. now exists b.
Qed.

(** X18. When the mission-complete builder returns OK, it has appended one
    boundary with the vertices (s_min, 0), (s_max, 0),
    (s_max + boundary_buffer, planning_time), (s_min, planning_time), in
    this order, where s_min is the success tunnel and s_max is the smaller
    of the planning distance and reference_line.length minus
    backward_routing_distance; its characteristic length is the boundary
    buffer. *)
Theorem mission_complete_quadrilateral (reference_line : ReferenceLine)
    (planning_distance planning_time : Q) (boundary : list StGraphBoundary) :
  let r := map_mission_complete get_area Double_compare env reference_line
             planning_distance planning_time boundary in
  let s_min := success_tunnel (st_boundary_config env) in
  let s_max :=
    Qmin planning_distance
         (length_of reference_line - FLAGS_backward_routing_distance env) in
  code (fst r) = OK ->
  snd r
  = boundary ++
      [mkStGraphBoundary
         [ mkSTPoint s_min 0; mkSTPoint s_max 0;
           mkSTPoint (s_max + boundary_buffer (st_boundary_config env))
                     planning_time;
           mkSTPoint s_min planning_time ]
         STOP (Some (boundary_buffer (st_boundary_config env)))]
  /\ s_max <= planning_distance
  /\ s_max <= length_of reference_line - FLAGS_backward_routing_distance env.
Proof.
  intros r s_min s_max Hok. subst r s_min s_max.
  unfold map_mission_complete in *. cbv zeta in *.
  destruct (Double_compare (get_area _) 0 <=? 0)%Z; [discriminate Hok |].
  rewrite emplace_stop_boundary, fmin_Qmin. cbn [snd].
  split; [reflexivity |]. split; [apply Q.le_min_l | apply Q.le_min_r].
Qed.

(** *** The whole orchestrator *)

(** X19. Every call of [get_graph_boundary] ends, within any budget, and
    leaves what its pointer argument points to untouched.  It never returns
    OK.  With a pointer to a vector it returns the PLANNING_ERROR of line
    60.  With a null pointer it returns the PLANNING_ERROR of line 66 when
    the planning time is negative, that of line 73 when the planning time is
    not negative and the path has fewer than two points, and otherwise it
    calls [clear()] through the null pointer. *)
Theorem get_graph_boundary_outcomes (budget : nat) (decision_data : DecisionData)
    (path_data : list PathPoint) (reference_line : ReferenceLine)
    (planning_distance planning_time : Q)
    (obs_boundary : option (list StGraphBoundary)) :
  exists outcome,
    get_graph_boundary get_area check_overlap Double_compare env budget
      decision_data path_data reference_line planning_distance planning_time
      obs_boundary
    = Some (outcome, obs_boundary)
    /\ ((obs_boundary <> None
         /\ outcome = Returned (mkStatus PLANNING_ERROR "obs_boundary is NULL."))
        \/ (obs_boundary = None /\ planning_time < 0
            /\ outcome
               = Returned (mkStatus PLANNING_ERROR
                             "Fail to get params since planning_time < 0."))
        \/ (obs_boundary = None /\ 0 <= planning_time
            /\ (List.length path_data < 2)%nat
            /\ outcome
               = Returned (mkStatus PLANNING_ERROR
                             "Fail to get params because of too few path points"))
        \/ (obs_boundary = None /\ 0 <= planning_time
            /\ (2 <= List.length path_data)%nat
            /\ outcome = NullDereference)).
Proof.
  unfold get_graph_boundary. destruct obs_boundary as [v |]; simpl.
  - eexists. split; [reflexivity |]. left. split; [discriminate | reflexivity].
  - destruct (Qltb planning_time 0) eqn:Ht.
    + eexists. split; [reflexivity |]. right; left.
      apply Qltb_true in Ht. now repeat split.
    + apply Qltb_false in Ht.
      destruct (Z.of_nat (List.length path_data) <? 2)%Z eqn:Hn.
      * eexists. split; [reflexivity |]. right; right; left.
        apply Z.ltb_lt in Hn. repeat split; [exact Ht | lia].
      * eexists. split; [reflexivity |]. right; right; right.
        apply Z.ltb_ge in Hn. repeat split; [exact Ht | lia].
Qed.

End MapperFurtherProperties.

(** *** The further properties at work *)

(** The overlap search on the four-point path and the box of the crossing
    obstacle: the first overlapping index is 1, the last is 3. *)
Lemma find_overlap_first_and_last_witness :
  let r := find_overlap axis_aligned_overlap sample_env sample_path crossing_box in
  find_low r = true /\ find_high r = true
  /\ (0 <= low r < high r)%Z /\ (high r <= 4 - 1)%Z
  /\ overlaps_at axis_aligned_overlap sample_env sample_path crossing_box (low r)
     = true
  /\ overlaps_at axis_aligned_overlap sample_env sample_path crossing_box (high r)
     = true
  /\ (forall k, (0 <= k < low r)%Z ->
        overlaps_at axis_aligned_overlap sample_env sample_path crossing_box k
        = false)
  /\ (forall k, (high r < k <= 4 - 1)%Z ->
        overlaps_at axis_aligned_overlap sample_env sample_path crossing_box k
        = false).
Proof.
  assert (Hlow : find_low (find_overlap axis_aligned_overlap sample_env sample_path
                             crossing_box) = true) by reflexivity.
  assert (Hhigh : find_high (find_overlap axis_aligned_overlap sample_env
                               sample_path crossing_box) = true) by reflexivity.
  intro r. split; [exact Hlow |]. split; [exact Hhigh |].
  exact (find_overlap_first_and_last axis_aligned_overlap sample_env sample_path
           crossing_box Hlow Hhigh).
Defined.

Lemma find_overlap_finds_two_witness :
  let r := find_overlap axis_aligned_overlap sample_env sample_path crossing_box in
  (0 <= 1 < 3)%Z /\ (3 <= Z.of_nat (List.length sample_path) - 1)%Z
  /\ overlaps_at axis_aligned_overlap sample_env sample_path crossing_box 1 = true
  /\ overlaps_at axis_aligned_overlap sample_env sample_path crossing_box 3 = true
  /\ find_low r = true /\ find_high r = true /\ (low r <= 1)%Z /\ (3 <= high r)%Z.
Proof.
  assert (Hab : (0 <= 1 < 3)%Z) by lia.
  assert (Hb : (3 <= Z.of_nat (List.length sample_path) - 1)%Z) by (simpl; lia).
  assert (Hova : overlaps_at axis_aligned_overlap sample_env sample_path
                   crossing_box 1 = true) by reflexivity.
  assert (Hovb : overlaps_at axis_aligned_overlap sample_env sample_path
                   crossing_box 3 = true) by reflexivity.
  intro r. split; [exact Hab |]. split; [exact Hb |].
  split; [exact Hova |]. split; [exact Hovb |].
  exact (find_overlap_finds_two axis_aligned_overlap sample_env sample_path
           crossing_box 1 3 Hab Hb Hova Hovb).
Defined.

Lemma fan_sum_flat (p0 : STPoint) (rest : list STPoint) (t : Q) :
  st_t p0 = t -> Forall (fun p => st_t p = t) rest -> fan_sum p0 rest == 0.
Proof.
  intros H0 Hall. induction rest as [| p1 r IH]; [reflexivity |].
  inversion Hall as [| ? ? H1 Hr]; subst.
  destruct r as [| p2 r']; [reflexivity |].
  inversion Hr as [| ? ? H2 Hr']; subst.
  change (fan_sum p0 (p1 :: p2 :: r'))
    with ((st_t p1 - st_t p0) * (st_s p2 - st_s p0)
          - (st_s p1 - st_s p0) * (st_t p2 - st_t p0)
          + fan_sum p0 (p2 :: r')).
  rewrite (IH Hr), H1, H2. ring.
Qed.

(** The signed area of a polygon whose vertices lie at one time is zero. *)
Lemma signed_area_flat (pts : list STPoint) (t : Q) :
  Forall (fun p => st_t p = t) pts -> signed_area pts <= 0.
Proof.
  intro Hall. destruct pts as [| p0 rest]; [apply Qle_refl |].
  inversion Hall as [| ? ? H0 Hrest]; subst.
  unfold signed_area. rewrite (fan_sum_flat p0 rest (st_t p0) eq_refl Hrest).
  discriminate.
Qed.

(** The crossing obstacle with a Yield decision: after five steps of the
    loops nothing has been appended. *)
Lemma dynamic_builder_appends_nothing_witness :
  (forall a b : Q, (0 < exact_compare a b)%Z -> b < a)
  /\ (forall (pts : list STPoint) (t : Q),
         Forall (fun p => st_t p = t) pts -> signed_area pts <= 0)
  /\ has_follow (ObjYield 3) = false
  /\ boundary_out
       (snd (loop_run signed_area axis_aligned_overlap exact_compare sample_env 5
               (crossing_obstacle [ObjYield 3]) (ObjYield 3) sample_path
               (builder_start [])))
     = []
  /\ skip
       (snd (loop_run signed_area axis_aligned_overlap exact_compare sample_env 5
               (crossing_obstacle [ObjYield 3]) (ObjYield 3) sample_path
               (builder_start [])))
     = true.
Proof.
  split; [exact exact_compare_pos |]. split; [exact signed_area_flat |].
  split; [reflexivity |].
  exact (dynamic_builder_appends_nothing signed_area axis_aligned_overlap
           exact_compare sample_env exact_compare_pos signed_area_flat 5
           (crossing_obstacle [ObjYield 3]) (ObjYield 3) sample_path []
           eq_refl).
Defined.

(** The obstacle with two trajectories without samples. *)
Lemma dynamic_builder_returns_iff_no_sample_witness :
  (Z.of_nat (List.length (prediction_trajectories (idle_obstacle [ObjYield 3])))
   < 2 ^ 32)%Z
  /\ ((exists budget,
          map_obstacle_with_prediction_trajectory signed_area
            axis_aligned_overlap exact_compare sample_env budget
            (idle_obstacle [ObjYield 3]) (ObjYield 3) sample_path 80 8 []
          <> None)
      <-> Forall (fun t => trajectory_points t = [])
                 (prediction_trajectories (idle_obstacle [ObjYield 3]))).
Proof.
  assert (Hsmall :
            (Z.of_nat (List.length
                         (prediction_trajectories (idle_obstacle [ObjYield 3])))
             < 2 ^ 32)%Z) by reflexivity.
  split; [exact Hsmall |].
  exact (dynamic_builder_returns_iff_no_sample signed_area axis_aligned_overlap
           exact_compare sample_env (idle_obstacle [ObjYield 3]) (ObjYield 3)
           sample_path 80 8 [] Hsmall).
Defined.

(** Lines 77-138 on the scene with a stop line and two yielding obstacles:
    OK, with the stop boundary alone. *)
Lemma body_output_at_most_one_witness :
  (forall a b : Q, (0 < exact_compare a b)%Z -> b < a)
  /\ get_graph_boundary_body signed_area axis_aligned_overlap exact_compare
       sample_env 3 stop_and_yield_scene sample_path (straight_line 100) 80 8 []
     = Some (Status_OK,
             [mkStGraphBoundary
                [mkSTPoint 43 0; mkSTPoint 43 8; mkSTPoint 101 8; mkSTPoint 100 0]
                STOP (Some 1)])
  /\ ((Status_OK = Status_OK
       /\ ([mkStGraphBoundary
              [mkSTPoint 43 0; mkSTPoint 43 8; mkSTPoint 101 8; mkSTPoint 100 0]
              STOP (Some 1)] = []
           \/ exists b,
               [mkStGraphBoundary
                  [mkSTPoint 43 0; mkSTPoint 43 8; mkSTPoint 101 8;
                   mkSTPoint 100 0]
                  STOP (Some 1)] = [b]
               /\ boundary_type b = STOP /\ 0 < signed_area (points b)))
      \/ (Status_OK = Status_of PLANNING_ERROR
          /\ [mkStGraphBoundary
                [mkSTPoint 43 0; mkSTPoint 43 8; mkSTPoint 101 8; mkSTPoint 100 0]
                STOP (Some 1)] = [])).
Proof.
  assert (Hbody :
            get_graph_boundary_body signed_area axis_aligned_overlap exact_compare
              sample_env 3 stop_and_yield_scene sample_path (straight_line 100)
              80 8 []
            = Some (Status_OK,
                    [mkStGraphBoundary
                       [mkSTPoint 43 0; mkSTPoint 43 8; mkSTPoint 101 8;
                        mkSTPoint 100 0]
                       STOP (Some 1)])) by reflexivity.
  split; [exact exact_compare_pos |]. split; [exact Hbody |].
  exact (body_output_at_most_one signed_area axis_aligned_overlap exact_compare
           sample_env exact_compare_pos 3 stop_and_yield_scene sample_path
           (straight_line 100) 80 8 [] _ _ Hbody).
Defined.

(** The followed scene on a reference line without projection. *)
Lemma body_fails_on_projection_witness :
  main_decision follow_scene = MainDecisionStop stop_at_50
  /\ get_point_in_Frenet_frame (broken_line 100)
       (mkVec2d (vx (get_smooth_point sample_env "lane" 50))
                (vy (get_smooth_point sample_env "lane" 50)))
     = None
  /\ get_graph_boundary_body signed_area axis_aligned_overlap exact_compare
       sample_env 0 follow_scene sample_path (broken_line 100) 80 8 []
     = Some (Status_of PLANNING_ERROR, []).
Proof.
  split; [reflexivity |]. split; [reflexivity |].
  exact (body_fails_on_projection signed_area axis_aligned_overlap exact_compare
           sample_env 0 follow_scene sample_path (broken_line 100) 80 8 []
           stop_at_50 eq_refl eq_refl).
Defined.

(** The followed scene: the result is that of the stop decision. *)
Lemma body_of_quiet_scene_witness :
  no_prediction_decisions (DynamicObstacles follow_scene) = true
  /\ get_graph_boundary_body signed_area axis_aligned_overlap exact_compare
       sample_env 0 follow_scene sample_path (straight_line 100) 80 8 []
     = Some (match map_main_decision signed_area exact_compare sample_env
                     follow_scene (straight_line 100) 80 8 [] with
             | Return ret out => (ret, out)
             | Continue out => (Status_OK, out)
             end).
Proof.
  split; [reflexivity |].
  exact (body_of_quiet_scene signed_area axis_aligned_overlap exact_compare
           sample_env 0 follow_scene sample_path (straight_line 100) 80 8 []
           eq_refl).
Defined.

(** The scene whose first Yield decision belongs to the crossing obstacle:
    lines 77-138 do what the builder does on that decision. *)
Lemma first_prediction_decision_decides_witness :
  map_main_decision signed_area exact_compare sample_env crossing_yield_scene
    (straight_line 100) 80 8 []
  = Continue []
  /\ DynamicObstacles crossing_yield_scene
     = [None; Some (silent_obstacle [ObjFollow 1])]
       ++ Some (crossing_obstacle [ObjOther; ObjYield 3; ObjFollow 1])
          :: [Some (silent_obstacle [ObjYield 3])]
  /\ no_prediction_decisions [None; Some (silent_obstacle [ObjFollow 1])] = true
  /\ Decisions (crossing_obstacle [ObjOther; ObjYield 3; ObjFollow 1])
     = [ObjOther] ++ ObjYield 3 :: [ObjFollow 1]
  /\ forallb quiet_decision [ObjOther] = true
  /\ quiet_decision (ObjYield 3) = false
  /\ get_graph_boundary_body signed_area axis_aligned_overlap exact_compare
       sample_env 7 crossing_yield_scene sample_path (straight_line 100) 80 8 []
     = match map_obstacle_with_prediction_trajectory signed_area
               axis_aligned_overlap exact_compare sample_env 7
               (crossing_obstacle [ObjOther; ObjYield 3; ObjFollow 1])
               (ObjYield 3) sample_path 80 8 [] with
       | None => None
       | Some _ => Some (Status_OK, [])
       end.
Proof.
  repeat (split; [reflexivity |]).
  exact (first_prediction_decision_decides signed_area axis_aligned_overlap
           exact_compare sample_env 7 crossing_yield_scene sample_path
           (straight_line 100) 80 8 [] []
           [None; Some (silent_obstacle [ObjFollow 1])]
           [Some (silent_obstacle [ObjYield 3])]
           (crossing_obstacle [ObjOther; ObjYield 3; ObjFollow 1])
           [ObjOther] [ObjFollow 1] (ObjYield 3)
           eq_refl eq_refl eq_refl eq_refl eq_refl eq_refl).
Defined.

(** The stop boundary of the stop line at 50. *)
Lemma stop_boundary_geometry_witness :
  code (fst (map_main_decision_stop signed_area exact_compare sample_env
               stop_at_50 (straight_line 100) 80 8 []))
  = OK
  /\ exists s_min s_max : Q,
       snd (map_main_decision_stop signed_area exact_compare sample_env
              stop_at_50 (straight_line 100) 80 8 [])
       = [] ++
           [mkStGraphBoundary
              [ mkSTPoint s_min 0; mkSTPoint s_min 8;
                mkSTPoint (s_max + 1) 8; mkSTPoint s_max 0 ]
              STOP (Some 1)]
       /\ 0 <= s_min /\ s_min + 1 <= s_max /\ 80 <= s_max /\ 100 <= s_max.
Proof.
  split; [reflexivity |].
  exact (stop_boundary_geometry signed_area exact_compare sample_env stop_at_50
           (straight_line 100) 80 8 [] eq_refl).
Defined.

(** The mission-complete boundary for a planning distance of 5, short of
    the success tunnel of 10. *)
Lemma mission_complete_quadrilateral_witness :
  code (fst (map_mission_complete signed_area exact_compare sample_env
               (straight_line 100) 5 8 []))
  = OK
  /\ snd (map_mission_complete signed_area exact_compare sample_env
            (straight_line 100) 5 8 [])
     = [] ++
         [mkStGraphBoundary
            [ mkSTPoint 10 0; mkSTPoint (Qmin 5 (100 - 5)) 0;
              mkSTPoint (Qmin 5 (100 - 5) + 1) 8; mkSTPoint 10 8 ]
            STOP (Some 1)]
  /\ Qmin 5 (100 - 5) <= 5
  /\ Qmin 5 (100 - 5) <= 100 - 5.
Proof.
  split; [reflexivity |].
  exact (mission_complete_quadrilateral signed_area exact_compare sample_env
           (straight_line 100) 5 8 [] eq_refl).
Defined.

Lemma exact_compare_neg (a b : Q) : a < b -> (exact_compare a b < 0)%Z.
Proof.
  intro H. apply Qlt_alt in H. unfold exact_compare, Qcompare in *.
  rewrite H. reflexivity.
Qed.

(** The stop line at 6 on a reference line of length 3:
    [stop_rear_center_s] is -1, and the boundary starts at station 0. *)
Lemma stop_behind_vehicle_blocks_from_zero_witness :
  get_point_in_Frenet_frame (straight_line 3)
    (mkVec2d (vx (get_smooth_point sample_env "lane" 6))
             (vy (get_smooth_point sample_env "lane" 6)))
  = Some (mkSLPoint 6 0)
  /\ stop_rear_center_s_of sample_env (mkSLPoint 6 0) < 0
  /\ (map_main_decision_stop signed_area exact_compare sample_env
        (mkMainStop "lane" 6) (straight_line 3) 80 8 []
      = (Status_OK,
         [] ++
           [mkStGraphBoundary
              [ mkSTPoint 0 0; mkSTPoint 0 8;
                mkSTPoint (Qmax (0 + 1) (Qmax 80 3) + 1) 8;
                mkSTPoint (Qmax (0 + 1) (Qmax 80 3)) 0 ]
              STOP (Some 1)])
      \/ (map_main_decision_stop signed_area exact_compare sample_env
            (mkMainStop "lane" 6) (straight_line 3) 80 8 []
          = (Status_of PLANNING_SKIP, [])
          /\ (exact_compare
                (signed_area
                   [ mkSTPoint 0 0; mkSTPoint 0 8;
                     mkSTPoint (Qmax (0 + 1) (Qmax 80 3) + 1) 8;
                     mkSTPoint (Qmax (0 + 1) (Qmax 80 3)) 0 ]) 0 <= 0)%Z)).
Proof.
  assert (Hneg : stop_rear_center_s_of sample_env (mkSLPoint 6 0) < 0)
    by reflexivity.
  split; [reflexivity |]. split; [exact Hneg |].
  exact (stop_behind_vehicle_blocks_from_zero signed_area exact_compare
           sample_env exact_compare_neg (mkMainStop "lane" 6) (straight_line 3)
           80 8 [] (mkSLPoint 6 0) eq_refl Hneg).
Defined.

